(** * TODO list MCP server: a shallow embedding and its properties

    The development follows the TypeScript modules of the server:

    - [types.ts]      the data model and the zod schemas,
    - [database.ts]   class [TodoDatabase], the SQL statements it issues,
    - [mcp-server.ts] class [TodoMcpServer], the tool handlers,
    - [index.ts]      the registration of the [updateTodo] tool.

    The table [todo_items] is a list of rows and every SQL statement of
    [database.ts] is given its relational meaning on that list.  The order
    of the list is the order in which the engine happens to scan the
    table; no statement fixes it, and the rows that an [UPDATE] writes
    are put at the end.  What makes the engine fail whatever the statement (no
    connection, no table) is the [fault] carried by the store: a faulty
    store raises when a client is asked for.  A working store raises where
    the engine refuses a value: an id that is not a uuid, a text with a
    NUL byte, a text too long for [VARCHAR(255)], a date that does not
    parse, a [LIMIT] or [OFFSET] that is no [bigint], an id that is
    already stored.

    A string is the UTF-8 text of a JavaScript string.  A timestamp of a
    row is in microseconds since the epoch, a JavaScript [Date] in
    milliseconds; client and store keep the same time zone.  JavaScript
    numbers that arrive through JSON are rationals; where a statement
    below takes a whole number for one, it is at most 2^53, so that a
    JavaScript number holds it exactly.  The identity of a
    caller comes from request headers, which hold no NUL byte: the
    statements that compare [user_id] are given an identity without one. *)

From Stdlib Require Import ZArith QArith Qcanon List String Ascii Bool Lia.
From Stdlib Require Import Sorted Permutation.
From stdpp Require Import base gmap strings list pretty.

Local Open Scope string_scope.

(** ** Outcomes of a JavaScript computation *)

Inductive ZodIssueCode :=
| invalid_type | too_small | too_big | invalid_string | invalid_enum_value.

(** One entry of [ZodError.issues]: [path] names the offending field,
    [message] is the custom message of the schema when it gives one. *)
Record ZodIssue := mkIssue {
  code : ZodIssueCode;
  path : list string;
  message : option string
}.

(** What a [throw] carries: a plain [Error] or zod's [ZodError]. *)
Inductive Exn :=
| Error (msg : string)
| ZodError (issues : list ZodIssue).

Inductive Outcome (A : Type) :=
| Returned (a : A)
| Thrown (e : Exn).
Arguments Returned {A} a.
Arguments Thrown {A} e.

Definition and_then {A B} (o : Outcome A) (k : A -> Outcome B) : Outcome B :=
  match o with
  | Returned a => k a
  | Thrown e => Thrown e
  end.

(** A computation that may throw and that reads and writes a state [S]. *)
Definition M (S A : Type) : Type := S -> Outcome A * S.

Definition ret {S A} (a : A) : M S A := fun s => (Returned a, s).

Definition throw {S A} (e : Exn) : M S A := fun s => (Thrown e, s).

Definition bind {S A B} (m : M S A) (k : A -> M S B) : M S B :=
  fun s =>
    match m s with
    | (Returned a, s') => k a s'
    | (Thrown e, s') => (Thrown e, s')
    end.

Definition lift {S A} (o : Outcome A) : M S A := fun s => (o, s).

Notation "'let*' x ':=' m 'in' k" := (bind m (fun x => k))
  (at level 10, x pattern, m at level 100, k at level 200).

(** [try { body } catch (error) { handler }] *)
Definition try_catch {S A} (body : M S A) (handler : Exn -> M S A) : M S A :=
  fun s =>
    match body s with
    | (Returned a, s') => (Returned a, s')
    | (Thrown e, s') => handler e s'
    end.

(** ** Text as the program and the store measure it *)

(** The line feed, the double quote and the backslash. *)
Definition LF : string := String "010"%char EmptyString.

Definition DQ : string := String "034"%char EmptyString.

Definition BS : string := String "092"%char EmptyString.

(** A byte [10xxxxxx] continues a character. *)
Definition is_continuation (c : ascii) : bool :=
  let n := nat_of_ascii c in ((128 <=? n) && (n <? 192))%nat.

(** [s.length]: the number of UTF-16 code units; a character of four bytes
    takes two. *)
Fixpoint utf16_length (s : string) : nat :=
  match s with
  | EmptyString => 0
  | String c s' =>
      ((if is_continuation c then 0
        else if (240 <=? nat_of_ascii c)%nat then 2 else 1)
       + utf16_length s')%nat
  end.

(** [char_length(s)]: the number of characters. *)
Fixpoint code_points (s : string) : nat :=
  match s with
  | EmptyString => 0
  | String c s' => ((if is_continuation c then 0 else 1) + code_points s')%nat
  end.

(** The first [n] characters, and what follows them. *)
Fixpoint take_chars (n : nat) (s : string) : string :=
  match s with
  | EmptyString => EmptyString
  | String c s' =>
      if is_continuation c then String c (take_chars n s')
      else match n with
           | O => EmptyString
           | S n' => String c (take_chars n' s')
           end
  end.

Fixpoint drop_chars (n : nat) (s : string) : string :=
  match s with
  | EmptyString => EmptyString
  | String c s' =>
      if is_continuation c then drop_chars n s'
      else match n with
           | O => s
           | S n' => drop_chars n' s'
           end
  end.

Fixpoint has_nul (s : string) : bool :=
  match s with
  | EmptyString => false
  | String c s' => Ascii.eqb c Ascii.zero || has_nul s'
  end.

Fixpoint all_spaces (s : string) : bool :=
  match s with
  | EmptyString => true
  | String c s' => Ascii.eqb c " " && all_spaces s'
  end.

(** ** Values of type [uuid] *)

Module Uuid.

Inductive hex :=
| h0 | h1 | h2 | h3 | h4 | h5 | h6 | h7
| h8 | h9 | ha | hb | hc | hd | he | hf.

Definition hex_eqb (x y : hex) : bool :=
  match x, y with
  | h0, h0 | h1, h1 | h2, h2 | h3, h3 | h4, h4 | h5, h5 | h6, h6 | h7, h7
  | h8, h8 | h9, h9 | ha, ha | hb, hb | hc, hc | hd, hd | he, he | hf, hf => true
  | _, _ => false
  end.

(** The sixteen bytes, as thirty-two hexadecimal digits. *)
Record t := mk {
  d00 : hex; d01 : hex; d02 : hex; d03 : hex; d04 : hex; d05 : hex;
  d06 : hex; d07 : hex; d08 : hex; d09 : hex; d10 : hex; d11 : hex;
  d12 : hex; d13 : hex; d14 : hex; d15 : hex; d16 : hex; d17 : hex;
  d18 : hex; d19 : hex; d20 : hex; d21 : hex; d22 : hex; d23 : hex;
  d24 : hex; d25 : hex; d26 : hex; d27 : hex; d28 : hex; d29 : hex;
  d30 : hex; d31 : hex
}.

Definition digits (u : t) : list hex :=
  [d00 u; d01 u; d02 u; d03 u; d04 u; d05 u; d06 u; d07 u;
   d08 u; d09 u; d10 u; d11 u; d12 u; d13 u; d14 u; d15 u;
   d16 u; d17 u; d18 u; d19 u; d20 u; d21 u; d22 u; d23 u;
   d24 u; d25 u; d26 u; d27 u; d28 u; d29 u; d30 u; d31 u].

Definition of_digits (l : list hex) : option t :=
  match l with
  | [a00; a01; a02; a03; a04; a05; a06; a07;
     a08; a09; a10; a11; a12; a13; a14; a15;
     a16; a17; a18; a19; a20; a21; a22; a23;
     a24; a25; a26; a27; a28; a29; a30; a31] =>
      Some (mk a00 a01 a02 a03 a04 a05 a06 a07 a08 a09 a10 a11 a12 a13 a14 a15
               a16 a17 a18 a19 a20 a21 a22 a23 a24 a25 a26 a27 a28 a29 a30 a31)
  | _ => None
  end.

Fixpoint digits_eqb (l l' : list hex) : bool :=
  match l, l' with
  | [], [] => true
  | x :: l, y :: l' => hex_eqb x y && digits_eqb l l'
  | _, _ => false
  end.

Definition eqb (u v : t) : bool := digits_eqb (digits u) (digits v).

Definition char_of_hex (x : hex) : ascii :=
  match x with
  | h0 => "0" | h1 => "1" | h2 => "2" | h3 => "3"
  | h4 => "4" | h5 => "5" | h6 => "6" | h7 => "7"
  | h8 => "8" | h9 => "9" | ha => "a" | hb => "b"
  | hc => "c" | hd => "d" | he => "e" | hf => "f"
  end%char.

(** [isxdigit] and the value of the digit: both letter cases are read. *)
Definition hex_of_char (c : ascii) : option hex :=
  match nat_of_ascii c with
  | 48 => Some h0 | 49 => Some h1 | 50 => Some h2 | 51 => Some h3
  | 52 => Some h4 | 53 => Some h5 | 54 => Some h6 | 55 => Some h7
  | 56 => Some h8 | 57 => Some h9
  | 97 | 65 => Some ha | 98 | 66 => Some hb | 99 | 67 => Some hc
  | 100 | 68 => Some hd | 101 | 69 => Some he | 102 | 70 => Some hf
  | _ => None
  end%nat.

(** What the store prints for a uuid: lower-case digits in groups of
    8, 4, 4, 4 and 12. *)
Definition to_string (u : t) : string :=
  let c := char_of_hex in
  String (c (d00 u)) (String (c (d01 u)) (String (c (d02 u)) (String (c (d03 u))
  (String (c (d04 u)) (String (c (d05 u)) (String (c (d06 u)) (String (c (d07 u))
  (String "-"
  (String (c (d08 u)) (String (c (d09 u)) (String (c (d10 u)) (String (c (d11 u))
  (String "-"
  (String (c (d12 u)) (String (c (d13 u)) (String (c (d14 u)) (String (c (d15 u))
  (String "-"
  (String (c (d16 u)) (String (c (d17 u)) (String (c (d18 u)) (String (c (d19 u))
  (String "-"
  (String (c (d20 u)) (String (c (d21 u)) (String (c (d22 u)) (String (c (d23 u))
  (String (c (d24 u)) (String (c (d25 u)) (String (c (d26 u)) (String (c (d27 u))
  (String (c (d28 u)) (String (c (d29 u)) (String (c (d30 u)) (String (c (d31 u))
  EmptyString))))))))))))))))))))))))))))))))))).

(** The loop of the store's uuid reader: [n] bytes are still to read, [i]
    is the index of the next one; after a byte of odd index other than the
    last a hyphen is skipped. *)
Fixpoint read_bytes (n i : nat) (src : string) : option (list hex * string) :=
  match n with
  | O => Some ([], src)
  | S n' =>
      match src with
      | String a (String b rest) =>
          match hex_of_char a, hex_of_char b with
          | Some x, Some y =>
              let rest' :=
                match rest with
                | String c r =>
                    if Ascii.eqb c "-" && Nat.odd i && (i <? 15)%nat
                    then r else rest
                | EmptyString => rest
                end in
              match read_bytes n' (S i) rest' with
              | Some (l, r) => Some (x :: y :: l, r)
              | None => None
              end
          | _, _ => None
          end
      | _ => None
      end
  end.

(** The store's reading of a text as a uuid: an opening brace is allowed
    and must then be closed, nothing may follow. *)
Definition of_string (s : string) : option t :=
  let braces :=
    match s with
    | String c _ => Ascii.eqb c "{"
    | EmptyString => false
    end in
  let src :=
    match s with
    | String _ r => if braces then r else s
    | EmptyString => s
    end in
  match read_bytes 16 0 src with
  | Some (l, rest) =>
      let rest' :=
        if braces then
          match rest with
          | String c r => if Ascii.eqb c "}" then Some r else None
          | EmptyString => None
          end
        else Some rest in
      match rest' with
      | Some EmptyString => of_digits l
      | _ => None
      end
  | None => None
  end.

End Uuid.

(** ** types.ts: the data model *)

Inductive Priority := low | medium | high.

Definition Priority_eqb (p q : Priority) : bool :=
  match p, q with
  | low, low | medium, medium | high, high => true
  | _, _ => false
  end.

Definition Priority_to_string (p : Priority) : string :=
  match p with low => "low" | medium => "medium" | high => "high" end.

(** An item as the server holds it: [id] is the text of the uuid, the
    dates are in milliseconds. *)
Module TodoItem.
Record t := mk {
  id : string;
  title : string;
  description : option string;
  completed : bool;
  priority : Priority;
  due_date : option Z;
  created_at : Z;
  updated_at : Z;
  user_id : string;
  user_email : string;
  user_name : string
}.
End TodoItem.

Module CreateTodoRequest.
Record t := mk {
  title : string;
  description : option string;
  priority : option Priority;
  due_date : option string
}.
End CreateTodoRequest.

Module UpdateTodoRequest.
Record t := mk {
  title : option string;
  description : option string;
  completed : option bool;
  priority : option Priority;
  due_date : option string
}.
Definition empty : t := mk None None None None None.
End UpdateTodoRequest.

Module UserInfo.
Record t := mk { id : string; email : string; name : string }.
End UserInfo.

(** The [filters] argument of [getAllTodos]. *)
Module Filters.
Record t := mk {
  completed : option bool;
  priority : option Priority;
  search : option string;
  limit : option Q;
  offset : option Q
}.
End Filters.

(** A row of table [todo_items]; [None] is SQL [NULL]; the timestamps
    are in microseconds. *)
Module Row.
Record t := mk {
  id : Uuid.t;
  title : string;
  description : option string;
  completed : bool;
  priority : Priority;
  due_date : option Z;
  created_at : Z;
  updated_at : Z;
  user_id : string;
  user_email : string;
  user_name : string
}.
End Row.

(** JavaScript truthiness of a string, and [a || b] on an optional string. *)
Definition truthy (s : string) : bool := negb (String.eqb s EmptyString).

Definition or_default (o : option string) (d : string) : string :=
  match o with
  | Some s => if truthy s then s else d
  | None => d
  end.

(** A JSON value; an object lists its properties in insertion order. *)
#[local] Unset Elimination Schemes.
Inductive JSON :=
| JNull
| JBool (b : bool)
| JNum (q : Q)
| JStr (s : string)
| JArr (items : list JSON)
| JObj (properties : list (string * JSON)).
#[local] Set Elimination Schemes.

(** The parts of the JavaScript runtime and of the libraries that the
    server calls and that are kept abstract. *)
Class JsRuntime := {
  (** [new Date(s)] as milliseconds; [None] for an invalid date and for a
      date outside the range of the store's timestamps *)
  Date_parse : string -> option Z;
  (** [d.toLocaleDateString()] *)
  toLocaleDateString : Z -> string;
  (** [d.toISOString()] *)
  toISOString : Z -> string;
  (** the pattern behind [z.string().datetime()] *)
  is_datetime : string -> bool;
  (** [String(Math.round((completed / total) * 100))] in double arithmetic *)
  completion_rate : nat -> nat -> string;
  (** [String(x)] of a number, as [JSON.stringify] writes it *)
  Number_toString : Q -> string;
  (** [message] of a [ZodError] *)
  ZodError_message : list ZodIssue -> string
}.

(** ** The SQL operators used by the statements *)

Module Sql.

Definition lower_ascii (c : ascii) : ascii :=
  let n := nat_of_ascii c in
  if ((65 <=? n) && (n <=? 90))%nat then ascii_of_nat (n + 32) else c.

(** [lower] as the store folds letters in the C locale: the letters A to
    Z; other locales fold further letters. *)
Fixpoint lower (s : string) : string :=
  match s with
  | EmptyString => EmptyString
  | String c s' => String (lower_ascii c) (lower s')
  end.

(** [s LIKE p]: in the pattern [%] stands for any run of characters, [_]
    for any one character (its first byte and the bytes that continue it),
    and a backslash takes the next character literally. *)
Fixpoint like (p : string) : string -> bool :=
  match p with
  | EmptyString => fun s => match s with EmptyString => true | _ => false end
  | String c p' =>
      if Ascii.eqb c "%" then
        fix any (s : string) : bool :=
          like p' s || match s with
                       | EmptyString => false
                       | String _ s' => any s'
                       end
      else if Ascii.eqb c "_" then
        fun s => match s with
                 | String _ s' => like p' (drop_chars 0 s')
                 | EmptyString => false
                 end
      else if Ascii.eqb c "\" then
        match p' with
        | String d p'' =>
            fun s => match s with
                     | String e s' => Ascii.eqb d e && like p'' s'
                     | EmptyString => false
                     end
        | EmptyString => fun _ => false
        end
      else
        fun s => match s with
                 | String e s' => Ascii.eqb c e && like p' s'
                 | EmptyString => false
                 end
  end.

(** [s ILIKE p]: [LIKE] without regard to letter case. *)
Definition ilike (s p : string) : bool := like (lower p) (lower s).

(** The whole number that a number is, if it is one. *)
Definition to_bigint (q : Q) : option Z :=
  let r := Qred q in
  if Pos.eqb (Qden r) 1 then Some (Qnum r) else None.

Section WithRuntime.
Context {RT : JsRuntime}.

(** The parameter of the clause [LIMIT] or [OFFSET] arrives as the text of
    a JavaScript number, which has an exponent from 10^21 on, and is read
    as a [bigint]: a whole number from -2^63 to 2^63 - 1.  It must not be
    negative. *)
Definition row_count (clause : string) (q : Q) : Outcome nat :=
  let syntax :=
    Error ("invalid input syntax for type bigint: "
           ++ DQ ++ Number_toString q ++ DQ) in
  match to_bigint q with
  | Some z =>
      if (10 ^ 21 <=? Z.abs z)%Z then Thrown syntax
      else if ((z <? - 2 ^ 63) || (2 ^ 63 - 1 <? z))%Z
      then Thrown (Error ("value " ++ DQ ++ Number_toString q ++ DQ
                          ++ " is out of range for type bigint"))
      else if (z <? 0)%Z
      then Thrown (Error (clause ++ " must not be negative"))
      else Returned (Z.to_nat z)
  | None => Thrown syntax
  end.

End WithRuntime.

(** A parameter arrives as text, which holds no NUL byte. *)
Definition text_param (s : string) : Outcome string :=
  if has_nul s
  then Thrown (Error ("invalid byte sequence for encoding "
                      ++ DQ ++ "UTF8" ++ DQ ++ ": 0x00"))
  else Returned s.

(** A parameter compared with a [uuid] column is read as a uuid. *)
Definition uuid_param (s : string) : Outcome Uuid.t :=
  and_then (text_param s) (fun s =>
  match Uuid.of_string s with
  | Some u => Returned u
  | None =>
      Thrown (Error ("invalid input syntax for type uuid: " ++ DQ ++ s ++ DQ))
  end).

(** A value assigned to a column of type [VARCHAR(n)]: longer than [n]
    characters it is refused, unless only spaces are in excess, which are
    cut off. *)
Definition varchar (n : nat) (s : string) : Outcome string :=
  if (code_points s <=? n)%nat then Returned s
  else if all_spaces (drop_chars n s) then Returned (take_chars n s)
  else Thrown (Error ("value too long for type character varying("
                      ++ pretty n ++ ")")).

End Sql.

(** ** database.ts *)

Module TodoDatabase.

Record DB := mkDB {
  rows : list Row.t;
  fault : option string
}.

(** [await this.pool.connect()]: the client through which the statements
    of one method go.  A faulty store raises here. *)
Definition connect : M DB unit :=
  fun db =>
    match fault db with
    | Some m => (Thrown (Error m), db)
    | None => (Returned tt, db)
    end.

(** [SELECT * FROM todo_items WHERE cond] *)
Definition select_where (cond : Row.t -> bool) : M DB (list Row.t) :=
  fun db => (Returned (List.filter cond (rows db)), db).

(** [DELETE FROM todo_items WHERE cond], giving [rowCount]. *)
Definition delete_where (cond : Row.t -> bool) : M DB nat :=
  fun db =>
    (Returned (length (List.filter cond (rows db))),
     mkDB (List.filter (fun r => negb (cond r)) (rows db)) (fault db)).

(** [UPDATE todo_items SET set WHERE cond RETURNING *]: the rows it
    writes are new versions, scanned after the rows it leaves. *)
Definition update_where (set : Row.t -> Row.t) (cond : Row.t -> bool)
  : M DB (list Row.t) :=
  fun db =>
    let written := List.map set (List.filter cond (rows db)) in
    (Returned written,
     mkDB (List.filter (fun r => negb (cond r)) (rows db) ++ written) (fault db)).

(** [INSERT INTO todo_items ... RETURNING *]; the primary key rejects an
    [id] that is already stored. *)
Definition insert (row : Row.t) : M DB (list Row.t) :=
  fun db =>
    if existsb (fun r => Uuid.eqb (Row.id r) (Row.id row)) (rows db)
    then (Thrown (Error ("duplicate key value violates unique constraint "
                         ++ DQ ++ "todo_items_pkey" ++ DQ)), db)
    else (Returned [row], mkDB (rows db ++ [row]) (fault db)).

(** [new Date(t)] of a timestamp of a row, and the timestamp that the
    store keeps for a [Date]. *)
Definition to_Date (t : Z) : Z := (t / 1000)%Z.

Definition of_Date (d : Z) : Z := (d * 1000)%Z.

Definition mapRowToTodoItem (row : Row.t) : TodoItem.t :=
  {| TodoItem.id := Uuid.to_string (Row.id row);
     TodoItem.title := Row.title row;
     TodoItem.description := Row.description row;
     TodoItem.completed := Row.completed row;
     TodoItem.priority := Row.priority row;
     TodoItem.due_date := option_map to_Date (Row.due_date row);
     TodoItem.created_at := to_Date (Row.created_at row);
     TodoItem.updated_at := to_Date (Row.updated_at row);
     TodoItem.user_id := Row.user_id row;
     TodoItem.user_email := Row.user_email row;
     TodoItem.user_name := Row.user_name row |}.

(** [WHERE id = $1 AND user_id = $2], [$1] read as a uuid. *)
Definition matches (id : Uuid.t) (userId : string) (row : Row.t) : bool :=
  Uuid.eqb (Row.id row) id && String.eqb (Row.user_id row) userId.

Definition getTodoById (id userId : string) : M DB (option TodoItem.t) :=
  let* _ := connect in
  let* uuid := lift (Sql.uuid_param id) in
  let* result := select_where (matches uuid userId) in
  match result with
  | [] => ret None
  | row :: _ => ret (Some (mapRowToTodoItem row))
  end.

Definition deleteTodo (id userId : string) : M DB bool :=
  let* _ := connect in
  let* uuid := lift (Sql.uuid_param id) in
  let* rowCount := delete_where (matches uuid userId) in
  ret (0 <? rowCount)%nat.

(** An optional value, checked when it is there. *)
Definition checked {A B} (check : A -> Outcome B) (o : option A)
  : Outcome (option B) :=
  match o with
  | Some a => and_then (check a) (fun b => Returned (Some b))
  | None => Returned None
  end.

(** The [WHERE] clause assembled by [getAllTodos]. *)
Definition where_clause (userId : string) (filters : Filters.t) (row : Row.t) : bool :=
  String.eqb (Row.user_id row) userId
  && match Filters.completed filters with
     | Some b => Bool.eqb (Row.completed row) b
     | None => true
     end
  && match Filters.priority filters with
     | Some p => Priority_eqb (Row.priority row) p
     | None => true
     end
  && match Filters.search filters with
     | Some s =>
         if truthy s then
           let pattern := "%" ++ s ++ "%" in
           Sql.ilike (Row.title row) pattern
           || match Row.description row with
              | Some d => Sql.ilike d pattern
              | None => false
              end
         else true
     | None => true
     end.

(** [ORDER BY created_at DESC]; among rows with equal [created_at] the
    engine is free, and they are given here in the order of the scan. *)
Fixpoint insert_desc (x : Row.t) (l : list Row.t) : list Row.t :=
  match l with
  | [] => [x]
  | y :: l' =>
      if (Row.created_at y <=? Row.created_at x)%Z then x :: y :: l'
      else y :: insert_desc x l'
  end.

Fixpoint order_by_created_at_desc (l : list Row.t) : list Row.t :=
  match l with
  | [] => []
  | x :: l' => insert_desc x (order_by_created_at_desc l')
  end.

(** [n || d] on an optional number. *)
Definition number_or (o : option Q) (d : Q) : Q :=
  match o with
  | Some q => if Qeq_bool q 0 then d else q
  | None => d
  end.

Record TodosPage := mkPage {
  todos : list TodoItem.t;
  total : nat
}.

(** The pattern of the search, a text parameter of both statements. *)
Definition search_param (filters : Filters.t) : Outcome (option string) :=
  match Filters.search filters with
  | Some s => if truthy s then checked Sql.text_param (Some s) else Returned None
  | None => Returned None
  end.

Section WithRuntime.
Context {RT : JsRuntime}.

Definition getAllTodos (userId : string) (filters : Filters.t) : M DB TodosPage :=
  let* _ := connect in
  let* _ := lift (search_param filters) in
  let* countResult := select_where (where_clause userId filters) in
  let total := length countResult in
  let limit := number_or (Filters.limit filters) (50 # 1) in
  let offset := number_or (Filters.offset filters) (0 # 1) in
  let* selected := select_where (where_clause userId filters) in
  let* l := lift (Sql.row_count "LIMIT" limit) in
  let* o := lift (Sql.row_count "OFFSET" offset) in
  let result := firstn l (skipn o (order_by_created_at_desc selected)) in
  ret (mkPage (List.map mapRowToTodoItem result) total).

End WithRuntime.

Module Stats.
Record t := mk {
  total : nat;
  completed : nat;
  pending : nat;
  overdue : nat
}.
End Stats.

(** [completed = false AND due_date < CURRENT_TIMESTAMP]; a [NULL]
    [due_date] makes the comparison unknown and the row is not counted. *)
Definition is_overdue (now : Z) (row : Row.t) : bool :=
  negb (Row.completed row)
  && match Row.due_date row with
     | Some d => (d <? now)%Z
     | None => false
     end.

(** [now] is [CURRENT_TIMESTAMP]. *)
Definition getTodoStats (now : Z) (userId : string) : M DB Stats.t :=
  let* _ := connect in
  let* mine := select_where (fun r => String.eqb (Row.user_id r) userId) in
  ret {| Stats.total := length mine;
         Stats.completed := length (List.filter (fun r => Row.completed r) mine);
         Stats.pending := length (List.filter (fun r => negb (Row.completed r)) mine);
         Stats.overdue := length (List.filter (is_overdue now) mine) |}.

(** The values that [updateTodo] assigns, as the store takes them. *)
Module Assignment.
Record t := mk {
  title : option string;
  description : option string;
  completed : option bool;
  priority : option Priority;
  due_date : option (option Z)
}.
End Assignment.

(** The [SET] clauses built by [updateTodo], applied to one row; [now] is
    [CURRENT_TIMESTAMP]. *)
Definition set_clauses (values : Assignment.t) (now : Z) (row : Row.t) : Row.t :=
  {| Row.id := Row.id row;
     Row.title :=
       match Assignment.title values with
       | Some s => s
       | None => Row.title row
       end;
     Row.description :=
       match Assignment.description values with
       | Some s => Some s
       | None => Row.description row
       end;
     Row.completed :=
       match Assignment.completed values with
       | Some b => b
       | None => Row.completed row
       end;
     Row.priority :=
       match Assignment.priority values with
       | Some p => p
       | None => Row.priority row
       end;
     Row.due_date :=
       match Assignment.due_date values with
       | Some d => d
       | None => Row.due_date row
       end;
     Row.created_at := Row.created_at row;
     Row.updated_at := now;
     Row.user_id := Row.user_id row;
     Row.user_email := Row.user_email row;
     Row.user_name := Row.user_name row |}.

(** [setClauses.length === 0] *)
Definition no_set_clauses (updates : UpdateTodoRequest.t) : bool :=
  match UpdateTodoRequest.title updates,
        UpdateTodoRequest.description updates,
        UpdateTodoRequest.completed updates,
        UpdateTodoRequest.priority updates,
        UpdateTodoRequest.due_date updates with
  | None, None, None, None, None => true
  | _, _, _, _, _ => false
  end.

Section WithRuntime.
Context {RT : JsRuntime}.

(** [s ? new Date(s) : null], as the store takes it; the message of its
    refusal goes on with the text that the driver made of the date. *)
Definition date_or_null (s : string) : Outcome (option Z) :=
  if truthy s then
    match Date_parse s with
    | Some d => Returned (Some (of_Date d))
    | None => Thrown (Error "invalid input syntax for type timestamp")
    end
  else Returned None.

(** The parameters of the [UPDATE] statement as the store reads them:
    the texts first, then the date, then the id, and last the length of
    the title. *)
Definition update_params (id : string) (updates : UpdateTodoRequest.t)
  : Outcome (Assignment.t * Uuid.t) :=
  and_then (checked Sql.text_param (UpdateTodoRequest.title updates)) (fun title =>
  and_then (checked Sql.text_param (UpdateTodoRequest.description updates))
    (fun description =>
  and_then (checked date_or_null (UpdateTodoRequest.due_date updates)) (fun due_date =>
  and_then (Sql.uuid_param id) (fun uuid =>
  and_then (checked (Sql.varchar 255) title) (fun title =>
  Returned
    ({| Assignment.title := title;
        Assignment.description := description;
        Assignment.completed := UpdateTodoRequest.completed updates;
        Assignment.priority := UpdateTodoRequest.priority updates;
        Assignment.due_date := due_date |}, uuid)))))).

Definition updateTodo (now : Z) (id : string) (updates : UpdateTodoRequest.t)
    (userId : string) : M DB (option TodoItem.t) :=
  let* _ := connect in
  if no_set_clauses updates then getTodoById id userId
  else
    let* params := lift (update_params id updates) in
    let* result :=
      update_where (set_clauses (fst params) now) (matches (snd params) userId) in
    match result with
    | [] => ret None
    | row :: _ => ret (Some (mapRowToTodoItem row))
    end.

(** The parameters of the [INSERT] statement as the store reads them: the
    texts and the date first, in the order of the parameters, then the
    lengths of the [VARCHAR(255)] columns. *)
Definition insert_params (newid : Uuid.t) (now : Z) (todo : CreateTodoRequest.t)
    (user : UserInfo.t) : Outcome Row.t :=
  and_then (Sql.text_param (CreateTodoRequest.title todo)) (fun title =>
  and_then
    (match CreateTodoRequest.description todo with
     | Some s => if truthy s then checked Sql.text_param (Some s) else Returned None
     | None => Returned None
     end) (fun description =>
  and_then
    (match CreateTodoRequest.due_date todo with
     | Some s => date_or_null s
     | None => Returned None
     end) (fun due_date =>
  and_then (Sql.text_param (UserInfo.id user)) (fun user_id =>
  and_then (Sql.text_param (UserInfo.email user)) (fun user_email =>
  and_then (Sql.text_param (UserInfo.name user)) (fun user_name =>
  and_then (Sql.varchar 255 title) (fun title =>
  and_then (Sql.varchar 255 user_id) (fun user_id =>
  and_then (Sql.varchar 255 user_email) (fun user_email =>
  and_then (Sql.varchar 255 user_name) (fun user_name =>
  Returned
    {| Row.id := newid;
       Row.title := title;
       Row.description := description;
       Row.completed := false;
       Row.priority :=
         match CreateTodoRequest.priority todo with
         | Some p => p
         | None => medium
         end;
       Row.due_date := due_date;
       Row.created_at := now;
       Row.updated_at := now;
       Row.user_id := user_id;
       Row.user_email := user_email;
       Row.user_name := user_name |})))))))))).

(** [newid] is the value of [gen_random_uuid()], [now] is
    [CURRENT_TIMESTAMP]. *)
Definition createTodo (newid : Uuid.t) (now : Z) (todo : CreateTodoRequest.t)
    (user : UserInfo.t) : M DB TodoItem.t :=
  let* _ := connect in
  let* row := lift (insert_params newid now todo user) in
  let* result := insert row in
  match result with
  | row :: _ => ret (mapRowToTodoItem row)
  | [] => throw (Error "Cannot read properties of undefined")
  end.

End WithRuntime.

End TodoDatabase.

(** ** types.ts: the zod schemas *)

Module Zod.

Inductive Parsed (A : Type) :=
| Valid (a : A)
| Invalid (issues : list ZodIssue).
Arguments Valid {A} a.
Arguments Invalid {A} issues.

(** A schema reads the value of a property ([None] when the property is
    undefined); the name of the property is the path of its issues. *)
Definition Schema (A : Type) : Type := string -> option JSON -> Parsed A.

(** A refinement such as [.min(1)]: the issue it raises, if any. *)
Definition Check (A : Type) : Type := string -> A -> option ZodIssue.

(** Every refinement is run; their issues are collected. *)
Definition run_checks {A} (checks : list (Check A)) (field : string) (a : A)
  : Parsed A :=
  match List.flat_map (fun c => match c field a with
                                | Some i => [i]
                                | None => []
                                end) checks with
  | [] => Valid a
  | issues => Invalid issues
  end.

Definition z_string (checks : list (Check string)) : Schema string :=
  fun field v =>
    match v with
    | Some (JStr s) => run_checks checks field s
    | _ => Invalid [mkIssue invalid_type [field] None]
    end.

Definition z_number (checks : list (Check Q)) : Schema Q :=
  fun field v =>
    match v with
    | Some (JNum q) => run_checks checks field q
    | _ => Invalid [mkIssue invalid_type [field] None]
    end.

Definition z_boolean : Schema bool :=
  fun field v =>
    match v with
    | Some (JBool b) => Valid b
    | _ => Invalid [mkIssue invalid_type [field] None]
    end.

(** [z.enum(["low", "medium", "high"])] *)
Definition z_enum_priority : Schema Priority :=
  fun field v =>
    match v with
    | Some (JStr s) =>
        if String.eqb s "low" then Valid low
        else if String.eqb s "medium" then Valid medium
        else if String.eqb s "high" then Valid high
        else Invalid [mkIssue invalid_enum_value [field] None]
    | _ => Invalid [mkIssue invalid_type [field] None]
    end.

Definition str_min (n : nat) (msg : string) : Check string :=
  fun field s =>
    if (utf16_length s <? n)%nat
    then Some (mkIssue too_small [field] (Some msg)) else None.

Definition str_max (n : nat) (msg : string) : Check string :=
  fun field s =>
    if (n <? utf16_length s)%nat
    then Some (mkIssue too_big [field] (Some msg)) else None.

Definition num_min (lo : Q) : Check Q :=
  fun field q =>
    if Qle_bool lo q then None else Some (mkIssue too_small [field] None).

Definition num_max (hi : Q) : Check Q :=
  fun field q =>
    if Qle_bool q hi then None else Some (mkIssue too_big [field] None).

Definition optional {A} (schema : Schema A) : Schema (option A) :=
  fun field v =>
    match v with
    | None => Valid None
    | Some _ =>
        match schema field v with
        | Valid a => Valid (Some a)
        | Invalid issues => Invalid issues
        end
    end.

Definition default {A} (d : A) (schema : Schema A) : Schema A :=
  fun field v =>
    match v with
    | None => Valid d
    | Some _ => schema field v
    end.

(** The value of property [key] of an object. *)
Fixpoint property (properties : list (string * JSON)) (key : string) : option JSON :=
  match properties with
  | [] => None
  | (k, v) :: rest => if String.eqb k key then Some v else property rest key
  end.

(** [z.object(shape)]: the properties of the shape are parsed one after
    the other and the issues of all of them are reported. *)
Definition z_object {A} (shape : (string -> option JSON) -> Parsed A) (input : JSON)
  : Parsed A :=
  match input with
  | JObj properties => shape (property properties)
  | _ => Invalid [mkIssue invalid_type [] None]
  end.

Definition ap {A B} (f : Parsed (A -> B)) (x : Parsed A) : Parsed B :=
  match f, x with
  | Valid g, Valid a => Valid (g a)
  | Valid _, Invalid i => Invalid i
  | Invalid i, Valid _ => Invalid i
  | Invalid i, Invalid j => Invalid (i ++ j)
  end.

Definition fmap {A B} (f : A -> B) (x : Parsed A) : Parsed B :=
  match x with
  | Valid a => Valid (f a)
  | Invalid i => Invalid i
  end.

(** [schema.parse(input)] *)
Definition parse {A} (p : Parsed A) : Outcome A :=
  match p with
  | Valid a => Returned a
  | Invalid issues => Thrown (ZodError issues)
  end.

End Zod.

Notation "f <*> x" := (Zod.ap f x) (at level 61, left associativity).

Section Schemas.
Context {RT : JsRuntime}.

(** [.datetime()] *)
Definition str_datetime : Zod.Check string :=
  fun field s =>
    if is_datetime s then None else Some (mkIssue invalid_string [field] None).

Definition CreateTodoSchema : JSON -> Zod.Parsed CreateTodoRequest.t :=
  Zod.z_object (fun get =>
    Zod.Valid CreateTodoRequest.mk
    <*> Zod.z_string [Zod.str_min 1 "Title is required";
                      Zod.str_max 255 "Title too long"] "title" (get "title")
    <*> Zod.optional (Zod.z_string [Zod.str_max 1000 "Description too long"])
          "description" (get "description")
    <*> Zod.fmap Some
          (Zod.default medium Zod.z_enum_priority "priority" (get "priority"))
    <*> Zod.optional (Zod.z_string [str_datetime]) "due_date" (get "due_date")).

Definition UpdateTodoShape (get : string -> option JSON)
  : Zod.Parsed UpdateTodoRequest.t :=
  Zod.Valid UpdateTodoRequest.mk
  <*> Zod.optional (Zod.z_string [Zod.str_min 1 "Title is required";
                                  Zod.str_max 255 "Title too long"])
        "title" (get "title")
  <*> Zod.optional (Zod.z_string [Zod.str_max 1000 "Description too long"])
        "description" (get "description")
  <*> Zod.optional Zod.z_boolean "completed" (get "completed")
  <*> Zod.optional Zod.z_enum_priority "priority" (get "priority")
  <*> Zod.optional (Zod.z_string [str_datetime]) "due_date" (get "due_date").

Definition UpdateTodoSchema : JSON -> Zod.Parsed UpdateTodoRequest.t :=
  Zod.z_object UpdateTodoShape.

(** [z.object({ id: z.string(), ...UpdateTodoSchema.shape })] *)
Definition IdAndUpdateSchema : JSON -> Zod.Parsed (string * UpdateTodoRequest.t) :=
  Zod.z_object (fun get =>
    Zod.Valid pair
    <*> Zod.z_string [] "id" (get "id")
    <*> UpdateTodoShape get).

End Schemas.

Definition TodoFilterSchema : JSON -> Zod.Parsed Filters.t :=
  Zod.z_object (fun get =>
    Zod.Valid Filters.mk
    <*> Zod.optional Zod.z_boolean "completed" (get "completed")
    <*> Zod.optional Zod.z_enum_priority "priority" (get "priority")
    <*> Zod.optional (Zod.z_string []) "search" (get "search")
    <*> Zod.fmap Some
          (Zod.default (50 # 1) (Zod.z_number [Zod.num_min (1 # 1); Zod.num_max (100 # 1)])
             "limit" (get "limit"))
    <*> Zod.fmap Some
          (Zod.default (0 # 1) (Zod.z_number [Zod.num_min (0 # 1)])
             "offset" (get "offset"))).

(** [z.object({ id: z.string() })] *)
Definition IdSchema : JSON -> Zod.Parsed string :=
  Zod.z_object (fun get => Zod.z_string [] "id" (get "id")).

(** ** [JSON.stringify(value, null, 2)] *)

Definition hex_digit (n : nat) : string :=
  match String.get n "0123456789abcdef" with
  | Some c => String c EmptyString
  | None => EmptyString
  end.

(** One character inside a JSON string: the quote, the backslash and the
    control characters are escaped. *)
Definition quote_char (c : ascii) : string :=
  let n := nat_of_ascii c in
  if (n =? 34)%nat then BS ++ DQ
  else if (n =? 92)%nat then BS ++ BS
  else if (n =? 8)%nat then BS ++ "b"
  else if (n =? 12)%nat then BS ++ "f"
  else if (n =? 10)%nat then BS ++ "n"
  else if (n =? 13)%nat then BS ++ "r"
  else if (n =? 9)%nat then BS ++ "t"
  else if (n <? 32)%nat
  then BS ++ "u00" ++ hex_digit (n / 16) ++ hex_digit (n mod 16)
  else String c EmptyString.

Fixpoint quote_chars (s : string) : string :=
  match s with
  | EmptyString => EmptyString
  | String c s' => quote_char c ++ quote_chars s'
  end.

Definition QuoteJSONString (s : string) : string := DQ ++ quote_chars s ++ DQ.

(** The lines of an array or object whose members are written at
    [indent]. *)
Definition members (indent : string) (texts : list string) : string :=
  LF ++ String.concat ("," ++ LF) (List.map (fun t => indent ++ t) texts) ++ LF.

Section WithRuntime.
Context {RT : JsRuntime}.

(** The text of [value] when it stands at the indentation [indent]; one
    level adds two spaces. *)
Fixpoint SerializeJSONProperty (indent : string) (value : JSON) : string :=
  match value with
  | JNull => "null"
  | JBool true => "true"
  | JBool false => "false"
  | JNum q => Number_toString q
  | JStr s => QuoteJSONString s
  | JArr [] => "[]"
  | JArr items =>
      "[" ++ members (indent ++ "  ")
               (List.map (SerializeJSONProperty (indent ++ "  ")) items)
      ++ indent ++ "]"
  | JObj [] => "{}"
  | JObj properties =>
      "{" ++ members (indent ++ "  ")
               (List.map
                  (fun kv =>
                     QuoteJSONString (fst kv) ++ ": "
                     ++ SerializeJSONProperty (indent ++ "  ") (snd kv))
                  properties)
      ++ indent ++ "}"
  end.

Definition JSON_stringify (value : JSON) : string :=
  SerializeJSONProperty EmptyString value.

End WithRuntime.

(** ** mcp-server.ts *)

Module ResourceLink.
Record t := mk {
  uri : string;
  name : string;
  mimeType : string;
  description : option string
}.
End ResourceLink.

(** An element of [CallToolResult.content]. *)
Inductive ContentItem :=
| text_content (text : string)
| resource_link (link : ResourceLink.t).

Record CallToolResult := mkCallToolResult {
  content : list ContentItem
}.

Module ResourceContents.
Record t := mk { uri : string; text : string }.
End ResourceContents.

Record ReadResourceResult := mkReadResourceResult {
  contents : list ResourceContents.t
}.

Inductive Role := user | assistant.

Module PromptMessage.
Record t := mk { role : Role; text : string }.
End PromptMessage.

Record GetPromptResult := mkGetPromptResult {
  messages : list PromptMessage.t
}.

(** The [params] of [getCreateTodoPrompt]. *)
Module PromptParams.
Record t := mk {
  title : option string;
  description : option string;
  priority : option string;
  due_date : option string
}.
End PromptParams.

(** [s.replace(pattern, replacement)] with a string pattern: the first
    occurrence only. *)
Fixpoint drop_string (n : nat) (s : string) : string :=
  match n, s with
  | O, _ => s
  | S n', String _ s' => drop_string n' s'
  | S _, EmptyString => EmptyString
  end.

Fixpoint String_replace (pattern replacement s : string) : string :=
  if String.prefix pattern s
  then replacement ++ drop_string (String.length pattern) s
  else match s with
       | EmptyString => EmptyString
       | String c s' => String c (String_replace pattern replacement s')
       end.

Module TodoMcpServer.

Import TodoDatabase.

Definition extractUserInfo (headers : gmap string string) : UserInfo.t :=
  let userId := or_default (headers !! "x-forwarded-user") "anonymous" in
  let email := or_default (headers !! "x-forwarded-email") "anonymous@example.com" in
  let name := or_default (headers !! "x-forwarded-name") "Anonymous User" in
  {| UserInfo.id := userId; UserInfo.email := email; UserInfo.name := name |}.

Definition getCreateTodoPrompt (params : PromptParams.t) : GetPromptResult :=
  {| messages :=
       [ {| PromptMessage.role := user;
            PromptMessage.text :=
              "Please help me create a TODO item with the following details:" ++ LF
              ++ "Title: "
              ++ or_default (PromptParams.title params) "[Please provide a title]"
              ++ LF ++ "Description: "
              ++ or_default (PromptParams.description params) "[Optional description]"
              ++ LF ++ "Priority: "
              ++ or_default (PromptParams.priority params) "medium"
              ++ LF ++ "Due Date: "
              ++ or_default (PromptParams.due_date params) "[Optional due date]"
              ++ LF ++ LF
              ++ "Please provide any additional suggestions or improvements for this TODO item."
         |} ] |}.

Section WithRuntime.
Context {RT : JsRuntime}.

(** [error instanceof Error ? error.message : "Unknown error"]; whatever
    is thrown here is an [Error]. *)
Definition error_message (error : Exn) : string :=
  match error with
  | Error msg => msg
  | ZodError issues => ZodError_message issues
  end.

(** The [catch] block shared by the tool handlers. *)
Definition failure (prefix : string) (error : Exn) : M DB CallToolResult :=
  ret {| content := [text_content (prefix ++ error_message error)] |}.

Definition description_line (todo : TodoItem.t) : string :=
  match TodoItem.description todo with
  | Some d => if truthy d then "Description: " ++ d ++ LF else EmptyString
  | None => EmptyString
  end.

Definition due_line (todo : TodoItem.t) : string :=
  match TodoItem.due_date todo with
  | Some d => "Due: " ++ toLocaleDateString d ++ LF
  | None => EmptyString
  end.

Definition status_text (todo : TodoItem.t) : string :=
  if TodoItem.completed todo then "✅ Completed" else "⏳ Pending".

Definition not_found (id : string) : CallToolResult :=
  {| content := [text_content ("❌ TODO with ID " ++ DQ ++ id ++ DQ ++ " not found")] |}.

Definition createTodo (newid : Uuid.t) (now : Z) (params : JSON)
    (headers : gmap string string) : M DB CallToolResult :=
  try_catch
    (let user := extractUserInfo headers in
     let* validatedData := lift (Zod.parse (CreateTodoSchema params)) in
     let* todo := TodoDatabase.createTodo newid now validatedData user in
     ret {| content :=
              [text_content
                 ("✅ TODO created successfully!" ++ LF ++ LF
                  ++ "**" ++ TodoItem.title todo ++ "**" ++ LF
                  ++ description_line todo
                  ++ "Priority: " ++ Priority_to_string (TodoItem.priority todo) ++ LF
                  ++ due_line todo
                  ++ "ID: " ++ TodoItem.id todo)] |})
    (failure "❌ Error creating TODO: ").

Definition getTodo (params : JSON) (headers : gmap string string)
  : M DB CallToolResult :=
  try_catch
    (let user := extractUserInfo headers in
     let* id := lift (Zod.parse (IdSchema params)) in
     let* found := getTodoById id (UserInfo.id user) in
     match found with
     | None => ret (not_found id)
     | Some todo =>
         ret {| content :=
                  [text_content
                     ("**" ++ TodoItem.title todo ++ "**" ++ LF
                      ++ description_line todo
                      ++ "Status: " ++ status_text todo ++ LF
                      ++ "Priority: " ++ Priority_to_string (TodoItem.priority todo) ++ LF
                      ++ due_line todo
                      ++ "Created: " ++ toLocaleDateString (TodoItem.created_at todo) ++ LF
                      ++ "Updated: " ++ toLocaleDateString (TodoItem.updated_at todo) ++ LF
                      ++ "ID: " ++ TodoItem.id todo)] |}
     end)
    (failure "❌ Error retrieving TODO: ").

Definition list_line (todo : TodoItem.t) : string :=
  let status := if TodoItem.completed todo then "✅" else "⏳" in
  let priority :=
    match TodoItem.priority todo with
    | high => "🔴"
    | medium => "🟡"
    | low => "🟢"
    end in
  let dueInfo :=
    match TodoItem.due_date todo with
    | Some d => " (Due: " ++ toLocaleDateString d ++ ")"
    | None => EmptyString
    end in
  status ++ " " ++ priority ++ " **" ++ TodoItem.title todo ++ "**" ++ dueInfo.

Definition listTodos (params : JSON) (headers : gmap string string)
  : M DB CallToolResult :=
  try_catch
    (let user := extractUserInfo headers in
     let* filters := lift (Zod.parse (TodoFilterSchema params)) in
     let* page := getAllTodos (UserInfo.id user) filters in
     match todos page with
     | [] =>
         ret {| content :=
                  [text_content
                     ("📝 No TODO items found"
                      ++ match Filters.search filters with
                         | Some s => if truthy s then " matching " ++ DQ ++ s ++ DQ else EmptyString
                         | None => EmptyString
                         end)] |}
     | _ =>
         let todoList := String.concat LF (List.map list_line (todos page)) in
         ret {| content :=
                  [text_content
                     ("📝 Found " ++ pretty (total page) ++ " TODO items (showing "
                      ++ pretty (length (todos page)) ++ "):" ++ LF ++ LF ++ todoList)] |}
     end)
    (failure "❌ Error listing TODOs: ").

Definition updateTodo (now : Z) (params : JSON) (headers : gmap string string)
  : M DB CallToolResult :=
  try_catch
    (let user := extractUserInfo headers in
     let* parsed := lift (Zod.parse (IdAndUpdateSchema params)) in
     let id := fst parsed in
     let updates := snd parsed in
     let* updated := TodoDatabase.updateTodo now id updates (UserInfo.id user) in
     match updated with
     | None => ret (not_found id)
     | Some todo =>
         ret {| content :=
                  [text_content
                     ("✅ TODO updated successfully!" ++ LF ++ LF
                      ++ "**" ++ TodoItem.title todo ++ "**" ++ LF
                      ++ description_line todo
                      ++ "Status: " ++ status_text todo ++ LF
                      ++ "Priority: " ++ Priority_to_string (TodoItem.priority todo) ++ LF
                      ++ due_line todo
                      ++ "Updated: " ++ toLocaleDateString (TodoItem.updated_at todo) ++ LF
                      ++ "ID: " ++ TodoItem.id todo)] |}
     end)
    (failure "❌ Error updating TODO: ").

Definition deleteTodo (params : JSON) (headers : gmap string string)
  : M DB CallToolResult :=
  try_catch
    (let user := extractUserInfo headers in
     let* id := lift (Zod.parse (IdSchema params)) in
     let* success := TodoDatabase.deleteTodo id (UserInfo.id user) in
     if success
     then ret {| content :=
                   [text_content ("🗑️ TODO with ID " ++ DQ ++ id ++ DQ ++ " deleted successfully")] |}
     else ret (not_found id))
    (failure "❌ Error deleting TODO: ").

Definition getTodoStats (now : Z) (params : JSON) (headers : gmap string string)
  : M DB CallToolResult :=
  try_catch
    (let user := extractUserInfo headers in
     let* stats := TodoDatabase.getTodoStats now (UserInfo.id user) in
     ret {| content :=
              [text_content
                 ("📊 TODO Statistics for " ++ UserInfo.name user ++ ":" ++ LF ++ LF
                  ++ "📝 Total: " ++ pretty (Stats.total stats) ++ LF
                  ++ "✅ Completed: " ++ pretty (Stats.completed stats) ++ LF
                  ++ "⏳ Pending: " ++ pretty (Stats.pending stats) ++ LF
                  ++ "🚨 Overdue: " ++ pretty (Stats.overdue stats) ++ LF ++ LF
                  ++ "Completion Rate: "
                  ++ (if (0 <? Stats.total stats)%nat
                      then completion_rate (Stats.completed stats) (Stats.total stats)
                      else "0")
                  ++ "%")] |})
    (failure "❌ Error getting statistics: ").

Definition completeTodo (now : Z) (params : JSON) (headers : gmap string string)
  : M DB CallToolResult :=
  try_catch
    (let user := extractUserInfo headers in
     let* id := lift (Zod.parse (IdSchema params)) in
     let* updated :=
       TodoDatabase.updateTodo now id
         (UpdateTodoRequest.mk None None (Some true) None None) (UserInfo.id user) in
     match updated with
     | None => ret (not_found id)
     | Some todo =>
         ret {| content :=
                  [text_content
                     ("🎉 Congratulations! TODO completed:" ++ LF ++ LF
                      ++ "**" ++ TodoItem.title todo ++ "**" ++ LF
                      ++ description_line todo
                      ++ "Priority: " ++ Priority_to_string (TodoItem.priority todo) ++ LF
                      ++ "Completed: " ++ toLocaleDateString (TodoItem.updated_at todo) ++ LF
                      ++ "ID: " ++ TodoItem.id todo)] |}
     end)
    (failure "❌ Error completing TODO: ").

(** The element that [todos.map] builds for one item in
    [getTodoResources]. *)
Definition resourceLink (todo : TodoItem.t) : ResourceLink.t :=
  {| ResourceLink.uri := "todo://" ++ TodoItem.id todo;
     ResourceLink.name := TodoItem.title todo;
     ResourceLink.mimeType := "application/json";
     ResourceLink.description :=
       Some ((if TodoItem.completed todo then "Completed" else "Pending")
             ++ " - " ++ Priority_to_string (TodoItem.priority todo) ++ " priority"
             ++ match TodoItem.due_date todo with
                | Some d => " - Due: " ++ toLocaleDateString d
                | None => EmptyString
                end) |}.

Definition getTodoResources (params : JSON) (headers : gmap string string)
  : M DB CallToolResult :=
  try_catch
    (let user := extractUserInfo headers in
     let* filters := lift (Zod.parse (TodoFilterSchema params)) in
     let* page := getAllTodos (UserInfo.id user) filters in
     let resourceLinks := List.map resourceLink (todos page) in
     ret {| content :=
              [text_content
                 ("📝 Available TODO resources (" ++ pretty (length resourceLinks)
                  ++ " items):");
               text_content
                 (LF ++ "You can read any of these resources using their URI.")] |})
    (failure "❌ Error getting TODO resources: ").

(** The object that [JSON.stringify] receives in [readTodoResource]: a
    property whose value is [undefined] is left out, a [Date] is written
    by [toISOString]. *)
Definition todo_to_json (todo : TodoItem.t) : JSON :=
  JObj
    ([("id", JStr (TodoItem.id todo));
      ("title", JStr (TodoItem.title todo));
      ("description",
        match TodoItem.description todo with
        | Some d => JStr d
        | None => JNull
        end);
      ("completed", JBool (TodoItem.completed todo));
      ("priority", JStr (Priority_to_string (TodoItem.priority todo)))]
     ++ match TodoItem.due_date todo with
        | Some d => [("due_date", JStr (toISOString d))]
        | None => []
        end
     ++ [("created_at", JStr (toISOString (TodoItem.created_at todo)));
         ("updated_at", JStr (toISOString (TodoItem.updated_at todo)));
         ("user_id", JStr (TodoItem.user_id todo));
         ("user_email", JStr (TodoItem.user_email todo));
         ("user_name", JStr (TodoItem.user_name todo))]).

Definition readTodoResource (uri : string) (headers : gmap string string)
  : M DB ReadResourceResult :=
  try_catch
    (let user := extractUserInfo headers in
     let todoId := String_replace "todo://" EmptyString uri in
     let* found := getTodoById todoId (UserInfo.id user) in
     match found with
     | None => throw (Error ("TODO with ID " ++ DQ ++ todoId ++ DQ ++ " not found"))
     | Some todo =>
         ret {| contents :=
                  [ {| ResourceContents.uri := uri;
                       ResourceContents.text := JSON_stringify (todo_to_json todo) |} ] |}
     end)
    (fun error => throw (Error ("Error reading TODO resource: " ++ error_message error))).

End WithRuntime.

End TodoMcpServer.

(** ** index.ts *)

Module Index.

Section WithRuntime.
Context {RT : JsRuntime}.

(** The object that [z.object(UpdateTodoSchema.shape)] makes of accepted
    arguments: the properties of the shape that are defined, and no
    other. *)
Definition update_args (args : UpdateTodoRequest.t) : JSON :=
  JObj
    (match UpdateTodoRequest.title args with
     | Some s => [("title", JStr s)]
     | None => []
     end
     ++ match UpdateTodoRequest.description args with
        | Some s => [("description", JStr s)]
        | None => []
        end
     ++ match UpdateTodoRequest.completed args with
        | Some b => [("completed", JBool b)]
        | None => []
        end
     ++ match UpdateTodoRequest.priority args with
        | Some p => [("priority", JStr (Priority_to_string p))]
        | None => []
        end
     ++ match UpdateTodoRequest.due_date args with
        | Some s => [("due_date", JStr s)]
        | None => []
        end).

(** The tool that [createMcpServer] registers as
    [server.tool("updateTodo", ..., UpdateTodoSchema.shape, handler)]: the
    server parses the arguments of a call with [z.object] of the registered
    shape, rejects the call when they do not parse, and otherwise calls
    the handler with the parsed object, which passes it to
    [todoServer.updateTodo]. *)
Definition registered_updateTodo (now : Z) (arguments : JSON)
    (headers : gmap string string) : M TodoDatabase.DB CallToolResult :=
  match UpdateTodoSchema arguments with
  | Zod.Valid args => TodoMcpServer.updateTodo now (update_args args) headers
  | Zod.Invalid issues =>
      throw (Error ("Invalid arguments for tool updateTodo: "
                    ++ ZodError_message issues))
  end.

End WithRuntime.

End Index.

(** ** Vocabulary of the statements *)

(** [needle] occurs in [hay]. *)
Fixpoint is_substring (needle hay : string) : bool :=
  String.prefix needle hay
  || match hay with
     | EmptyString => false
     | String _ hay' => is_substring needle hay'
     end.


(** The primary key of [todo_items]: no two rows share an [id]. *)
Definition primary_key (db : TodoDatabase.DB) : Prop :=
  List.NoDup (List.map Row.id (TodoDatabase.rows db)).

(** No row is selected by [WHERE id = $1 AND user_id = $2]. *)
Definition no_match (db : TodoDatabase.DB) (id : Uuid.t) (userId : string) : Prop :=
  forall r, In r (TodoDatabase.rows db) -> TodoDatabase.matches id userId r = false.

(** A runtime on which the handlers can be evaluated: every date is
    printed as its number of milliseconds, every text of a date is read as
    the epoch, and a number that is not whole is printed with one
    decimal. *)
Definition sample_runtime : JsRuntime :=
  {| Date_parse := fun _ => Some 0%Z;
     toLocaleDateString := fun d => pretty d;
     toISOString := fun d => pretty d;
     is_datetime := fun s => negb (String.eqb s EmptyString);
     completion_rate := fun c t => pretty (100 * c / t)%nat;
     Number_toString :=
       fun q =>
         let whole := (Qnum q / Z.pos (Qden q))%Z in
         let tenths := ((10 * Qnum q / Z.pos (Qden q)) mod 10)%Z in
         if (tenths =? 0)%Z then pretty whole
         else pretty whole ++ "." ++ pretty tenths;
     ZodError_message := fun issues => pretty (length issues) ++ " issue(s)" |}.

(** The uuid whose digits are all 0 but the last, which is the first
    character of [n]. *)
Definition sample_uuid (n : string) : Uuid.t :=
  let last :=
    match n with
    | String c _ =>
        match Uuid.hex_of_char c with
        | Some x => x
        | None => Uuid.h0
        end
    | EmptyString => Uuid.h0
    end in
  let o := Uuid.h0 in
  Uuid.mk o o o o o o o o o o o o o o o o o o o o o o o o o o o o o o o last.

(** The text of [sample_uuid n]. *)
Definition sample_id (n : string) : string := Uuid.to_string (sample_uuid n).

Definition sample_row (id owner title : string) (done : bool)
    (due : option Z) (created : Z) : Row.t :=
  {| Row.id := sample_uuid id; Row.title := title; Row.description := None;
     Row.completed := done; Row.priority := medium; Row.due_date := due;
     Row.created_at := created; Row.updated_at := created;
     Row.user_id := owner; Row.user_email := owner ++ "@example.com";
     Row.user_name := owner |}.

(** What [update] must leave alone: the fields that the partial set does
    not name, and the fields that no update can name. *)
Definition absent_fields_kept (updates : UpdateTodoRequest.t) (old new : TodoItem.t)
  : Prop :=
  (UpdateTodoRequest.title updates = None -> TodoItem.title new = TodoItem.title old)
  /\ (UpdateTodoRequest.description updates = None ->
      TodoItem.description new = TodoItem.description old)
  /\ (UpdateTodoRequest.completed updates = None ->
      TodoItem.completed new = TodoItem.completed old)
  /\ (UpdateTodoRequest.priority updates = None ->
      TodoItem.priority new = TodoItem.priority old)
  /\ (UpdateTodoRequest.due_date updates = None ->
      TodoItem.due_date new = TodoItem.due_date old)
  /\ TodoItem.id new = TodoItem.id old
  /\ TodoItem.created_at new = TodoItem.created_at old
  /\ TodoItem.user_id new = TodoItem.user_id old
  /\ TodoItem.user_email new = TodoItem.user_email old
  /\ TodoItem.user_name new = TodoItem.user_name old.


(** [needle] occurs in [hay] when letter case is ignored. *)
Definition contains_ci (needle hay : string) : bool :=
  is_substring (Sql.lower needle) (Sql.lower hay).

(** The row belongs to [userId] and passes the [completed], [priority] and
    [search] criteria, [search] being a case-insensitive substring of the
    title or of the description. *)
Definition passes_filters (userId : string) (filters : Filters.t) (row : Row.t) : bool :=
  String.eqb (Row.user_id row) userId
  && match Filters.completed filters with
     | Some b => Bool.eqb (Row.completed row) b
     | None => true
     end
  && match Filters.priority filters with
     | Some p => Priority_eqb (Row.priority row) p
     | None => true
     end
  && match Filters.search filters with
     | Some s =>
         contains_ci s (Row.title row)
         || match Row.description row with
            | Some d => contains_ci s d
            | None => false
            end
     | None => true
     end.

(** The text holds none of the characters that [LIKE] reads as pattern
    syntax. *)
Fixpoint no_wildcards (s : string) : bool :=
  match s with
  | EmptyString => true
  | String c s' =>
      negb (Ascii.eqb c "%") && negb (Ascii.eqb c "_") && negb (Ascii.eqb c "\")
      && no_wildcards s'
  end.


(** Newest first. *)
Definition row_newest_first (a b : Row.t) : Prop :=
  (Row.created_at b <= Row.created_at a)%Z.

Definition newest_first (a b : TodoItem.t) : Prop :=
  (TodoItem.created_at b <= TodoItem.created_at a)%Z.




(** The number is whole. *)
Definition is_integer (q : Q) : bool :=
  match Sql.to_bigint q with Some _ => true | None => false end.

(** The [limit] property is left out or is a number from 1 to 100. *)
Definition limit_in_range (v : option JSON) : Prop :=
  v = None \/ exists q, v = Some (JNum q) /\ (1 <= q)%Q /\ (q <= 100)%Q.

(** The [offset] property is left out or is a number that is not
    negative. *)
Definition offset_in_range (v : option JSON) : Prop :=
  v = None \/ exists q, v = Some (JNum q) /\ (0 <= q)%Q.

(** The number that a numeric property stands for, [d] when left out. *)
Definition number_value (v : option JSON) (d : Q) : Q :=
  match v with
  | Some (JNum q) => q
  | _ => d
  end.

(** Some issue of the list has path [field]. *)
Definition names_field (issues : list ZodIssue) (field : string) : Prop :=
  exists i, In i issues /\ path i = [field].

(** The prompt text shows [value] for the field labelled [label]. *)
Definition shows (text label value : string) : Prop :=
  is_substring (label ++ value ++ LF) text = true.

(** A sample store: one item of bob, one overdue item of alice. *)
Definition sample_db : TodoDatabase.DB :=
  TodoDatabase.mkDB
    [sample_row "1" "bob" "Pay rent" false None 10;
     sample_row "2" "alice" "Buy groceries" false (Some 20%Z) 15]
    None.

Definition alice_headers : gmap string string :=
  {[ "x-forwarded-user" := "alice" ]}.

(** The columns that no statement of [updateTodo] assigns. *)
Definition fixed_columns (r : Row.t) : Uuid.t * string * Z * string * string :=
  (Row.id r, Row.user_id r, Row.created_at r, Row.user_email r, Row.user_name r).

(** The partial set [{ completed: true }]. *)
Definition completed_only : UpdateTodoRequest.t :=
  UpdateTodoRequest.mk None None (Some true) None None.

(** The item belongs to [userId] and has the [completed] and [priority]
    values that the criteria ask for. *)
Definition meets_criteria (userId : string) (filters : Filters.t) (t : TodoItem.t)
  : Prop :=
  TodoItem.user_id t = userId
  /\ (forall b, Filters.completed filters = Some b -> TodoItem.completed t = b)
  /\ (forall p, Filters.priority filters = Some p -> TodoItem.priority t = p).

(** The store holds no row with this [id]. *)
Definition fresh_id (db : TodoDatabase.DB) (id : Uuid.t) : Prop :=
  forall r, In r (TodoDatabase.rows db) -> Row.id r <> id.

(** The computation leaves every store as it finds it. *)
Definition leaves_store {A} (m : M TodoDatabase.DB A) : Prop :=
  forall db, snd (m db) = db.

(** The response of a handler whose [catch] block ran with these issues. *)
Definition rejection (prefix : string) {RT : JsRuntime} (issues : list ZodIssue)
  : CallToolResult :=
  {| content := [text_content (prefix ++ ZodError_message issues)] |}.

(** [s.repeat(n)] *)
Fixpoint String_repeat (s : string) (n : nat) : string :=
  match n with
  | O => EmptyString
  | S n' => s ++ String_repeat s n'
  end.

(** The text holds no NUL byte and at most [n] characters. *)
Definition fits_varchar (n : nat) (s : string) : bool :=
  negb (has_nul s) && (code_points s <=? n)%nat.

(** An identity whose three fields the [VARCHAR(255)] columns take as they
    are. *)
Definition storable_user (user : UserInfo.t) : bool :=
  fits_varchar 255 (UserInfo.id user)
  && fits_varchar 255 (UserInfo.email user)
  && fits_varchar 255 (UserInfo.name user).

(** A text that no [VARCHAR(255)] column takes: it holds a NUL byte, or
    more than 255 characters of which those in excess are not all
    spaces. *)
Definition refused_varchar (s : string) : bool :=
  has_nul s || negb (code_points s <=? 255)%nat && negb (all_spaces (drop_chars 255 s)).

(** One call of the store, and a store as calls leave it while its clock
    does not run backwards. *)
Inductive Call :=
| call_createTodo (newid : Uuid.t) (todo : CreateTodoRequest.t) (owner : UserInfo.t)
| call_updateTodo (id : string) (updates : UpdateTodoRequest.t) (userId : string)
| call_deleteTodo (id userId : string).

Section WithRuntime.
Context {RT : JsRuntime}.

(** The text is empty or that of a date. *)
Definition is_date (s : string) : bool :=
  negb (truthy s)
  || match Date_parse s with
     | Some _ => true
     | None => false
     end.

(** Values that the store takes as they are for the columns that
    [updateTodo] assigns. *)
Definition storable_update (updates : UpdateTodoRequest.t) : bool :=
  match UpdateTodoRequest.title updates with
  | Some s => fits_varchar 255 s
  | None => true
  end
  && match UpdateTodoRequest.description updates with
     | Some s => negb (has_nul s)
     | None => true
     end
  && match UpdateTodoRequest.due_date updates with
     | Some s => is_date s
     | None => true
     end.

(** Values that the store takes as they are for the columns that
    [createTodo] fills. *)
Definition storable_todo (todo : CreateTodoRequest.t) : bool :=
  fits_varchar 255 (CreateTodoRequest.title todo)
  && match CreateTodoRequest.description todo with
     | Some s => negb (has_nul s)
     | None => true
     end
  && match CreateTodoRequest.due_date todo with
     | Some s => is_date s
     | None => true
     end.

(** The due date that the text [s] stands for, in milliseconds. *)
Definition due_date_of (s : string) : option Z :=
  if truthy s then Date_parse s else None.

(** The row that [createTodo] inserts when the store takes the values as
    they are. *)
Definition inserted_row (newid : Uuid.t) (now : Z) (todo : CreateTodoRequest.t)
    (owner : UserInfo.t) : Row.t :=
  {| Row.id := newid;
     Row.title := CreateTodoRequest.title todo;
     Row.description :=
       match CreateTodoRequest.description todo with
       | Some s => if truthy s then Some s else None
       | None => None
       end;
     Row.completed := false;
     Row.priority :=
       match CreateTodoRequest.priority todo with
       | Some p => p
       | None => medium
       end;
     Row.due_date :=
       match CreateTodoRequest.due_date todo with
       | Some s => option_map TodoDatabase.of_Date (due_date_of s)
       | None => None
       end;
     Row.created_at := now;
     Row.updated_at := now;
     Row.user_id := UserInfo.id owner;
     Row.user_email := UserInfo.email owner;
     Row.user_name := UserInfo.name owner |}.

Definition run (now : Z) (c : Call) (db : TodoDatabase.DB) : TodoDatabase.DB :=
  match c with
  | call_createTodo newid todo owner =>
      snd (TodoDatabase.createTodo newid now todo owner db)
  | call_updateTodo id updates userId =>
      snd (TodoDatabase.updateTodo now id updates userId db)
  | call_deleteTodo id userId => snd (TodoDatabase.deleteTodo id userId db)
  end.

(** [reached clock db]: the store [db] is what calls made at times up to
    [clock], each no earlier than the one before, leave of an empty table;
    the connection may fail or recover between calls. *)
Inductive reached : Z -> TodoDatabase.DB -> Prop :=
| reached_empty clock fault : reached clock (TodoDatabase.mkDB [] fault)
| reached_call clock db now c :
    reached clock db -> (clock <= now)%Z -> reached now (run now c db)
| reached_fault clock db fault :
    reached clock db -> reached clock (TodoDatabase.mkDB (TodoDatabase.rows db) fault).

End WithRuntime.

(** The identity of alice, and the item that she creates in the sample
    history. *)
Definition alice : UserInfo.t :=
  {| UserInfo.id := "alice"; UserInfo.email := "alice@example.com";
     UserInfo.name := "Alice" |}.

Definition sample_todo : CreateTodoRequest.t :=
  {| CreateTodoRequest.title := "Buy groceries";
     CreateTodoRequest.description := None;
     CreateTodoRequest.priority := None;
     CreateTodoRequest.due_date := None |}.

(** The store after alice created [sample_todo] at time 15000 in an empty
    table. *)
Definition sample_history : TodoDatabase.DB :=
  @run sample_runtime 15000 (call_createTodo (sample_uuid "2") sample_todo alice)
    (TodoDatabase.mkDB [] None).

(** The text of a JSON object whose members are given as they are
    written: one per line, indented by two spaces, a comma between them. *)
Definition object_text (members : list string) : string :=
  "{"
  ++ (LF ++ String.concat ("," ++ LF) (List.map (fun m => "  " ++ m) members) ++ LF)
  ++ "}".

(** The member [name] with the text [value]. *)
Definition member (name value : string) : string :=
  DQ ++ name ++ DQ ++ ": " ++ value.

(** The full item of a row as indented JSON text: the id as the store
    prints it, the title, the description or [null], the completion flag,
    the priority, the due date if there is one, the two timestamps, and
    the id, email and name of the owner; texts are quoted, dates are
    written by [toISOString]. *)
Definition item_text {RT : JsRuntime} (r : Row.t) : string :=
  let date (t : Z) := QuoteJSONString (toISOString (TodoDatabase.to_Date t)) in
  object_text
    ([member "id" (QuoteJSONString (Uuid.to_string (Row.id r)));
      member "title" (QuoteJSONString (Row.title r));
      member "description"
        match Row.description r with
        | Some d => QuoteJSONString d
        | None => "null"
        end;
      member "completed" (if Row.completed r then "true" else "false");
      member "priority" (QuoteJSONString (Priority_to_string (Row.priority r)))]
     ++ match Row.due_date r with
        | Some d => [member "due_date" (date d)]
        | None => []
        end
     ++ [member "created_at" (date (Row.created_at r));
         member "updated_at" (date (Row.updated_at r));
         member "user_id" (QuoteJSONString (Row.user_id r));
         member "user_email" (QuoteJSONString (Row.user_email r));
         member "user_name" (QuoteJSONString (Row.user_name r))]).

(** ** Properties of database.ts *)

(** *** Values of type uuid *)

Module UuidFacts.
Import Uuid.

Lemma hex_eqb_eq x y : hex_eqb x y = true <-> x = y.
Proof.
  destruct x, y; simpl; split; intros H; try reflexivity; discriminate H.
Qed.

Lemma digits_eqb_eq l l' : digits_eqb l l' = true <-> l = l'.
Proof.
  revert l'. induction l as [|x l IH]; intros [|y l']; simpl;
    try (split; [discriminate | discriminate]); [tauto|].
  rewrite andb_true_iff, hex_eqb_eq, IH. split.
  - now intros [-> ->].
  - now intros [= -> ->].
Qed.

Lemma digits_inj u v : digits u = digits v -> u = v.
Proof.
  destruct u, v. unfold digits. simpl. intros H.
  injection H. intros. subst. reflexivity.
Qed.

Lemma eqb_eq u v : eqb u v = true <-> u = v.
Proof.
  unfold eqb. rewrite digits_eqb_eq. split; [apply digits_inj | now intros ->].
Qed.

Lemma eqb_refl u : eqb u u = true.
Proof. now apply eqb_eq. Qed.

Lemma eqb_neq u v : eqb u v = false <-> u <> v.
Proof.
  destruct (eqb u v) eqn:E.
  - apply eqb_eq in E. split; [discriminate | congruence].
  - split; [|reflexivity]. intros _ H. apply eqb_eq in H. congruence.
Qed.

Lemma hex_of_char_of_hex x : hex_of_char (char_of_hex x) = Some x.
Proof. now destruct x. Qed.

Lemma char_of_hex_not (c : ascii) x :
  hex_of_char c = None -> Ascii.eqb (char_of_hex x) c = false.
Proof.
  intros H. apply Ascii.eqb_neq. intros E. subst c.
  rewrite hex_of_char_of_hex in H. discriminate H.
Qed.

(** The store reads the text that it prints for a uuid as that uuid. *)
Lemma of_string_to_string u : of_string (to_string u) = Some u.
Proof.
  destruct u. unfold of_string, to_string. cbn [d00 d01 d02 d03 d04 d05 d06 d07
    d08 d09 d10 d11 d12 d13 d14 d15 d16 d17 d18 d19 d20 d21 d22 d23 d24 d25
    d26 d27 d28 d29 d30 d31].
  rewrite (char_of_hex_not "{") by reflexivity.
  repeat (cbn -[hex_of_char char_of_hex Ascii.eqb];
          rewrite ?hex_of_char_of_hex, ?Ascii.eqb_refl,
            ?(char_of_hex_not "-") by reflexivity).
  reflexivity.
Qed.

Lemma hex_of_char_not_nul c x : hex_of_char c = Some x -> Ascii.eqb c Ascii.zero = false.
Proof.
  intros H. apply Ascii.eqb_neq. intros ->. discriminate H.
Qed.

Lemma read_bytes_no_nul n : forall i s l rest,
  read_bytes n i s = Some (l, rest) -> has_nul s = has_nul rest.
Proof.
  induction n as [|n IH]; intros i s l rest; cbn [read_bytes].
  - now intros [= _ <-].
  - destruct s as [|a [|b s]]; try discriminate.
    destruct (hex_of_char a) as [x|] eqn:Ha; [|discriminate].
    destruct (hex_of_char b) as [y|] eqn:Hb; [|discriminate].
    set (rest' := match s with
                  | EmptyString => s
                  | String c r =>
                      if Ascii.eqb c "-" && Nat.odd i && (i <? 15)%nat then r else s
                  end).
    destruct (read_bytes n (S i) rest') as [[l' r']|] eqn:E; [|discriminate].
    intros [= _ <-]. cbn [has_nul].
    rewrite (hex_of_char_not_nul _ _ Ha), (hex_of_char_not_nul _ _ Hb).
    cbn [orb]. rewrite <- (IH _ _ _ _ E). subst rest'.
    destruct s as [|c r]; [reflexivity|].
    destruct (Ascii.eqb c "-") eqn:Ec; cbn [andb]; [|reflexivity].
    destruct (Nat.odd i); cbn [andb]; [|reflexivity].
    destruct (i <? 15)%nat; [|reflexivity].
    cbn [has_nul]. apply Ascii.eqb_eq in Ec. now subst c.
Qed.

(** A text that the store reads as a uuid holds no NUL byte. *)
Lemma of_string_no_nul s u : of_string s = Some u -> has_nul s = false.
Proof.
  unfold of_string. destruct s as [|c s]; [discriminate|].
  destruct (Ascii.eqb c "{") eqn:Ec.
  - apply Ascii.eqb_eq in Ec. subst c.
    destruct (read_bytes 16 0 s) as [[l rest]|] eqn:E; [|discriminate].
    apply read_bytes_no_nul in E.
    destruct rest as [|d rest]; [discriminate|].
    destruct (Ascii.eqb d "}") eqn:Ed; [|discriminate].
    destruct rest; [|discriminate]. intros _.
    apply Ascii.eqb_eq in Ed. subst d. cbn [has_nul]. now rewrite E.
  - destruct (read_bytes 16 0 (String c s)) as [[l rest]|] eqn:E; [|discriminate].
    apply read_bytes_no_nul in E.
    destruct rest; [|discriminate]. intros _. now rewrite E.
Qed.

Lemma uuid_param_parsed s u :
  of_string s = Some u -> Sql.uuid_param s = Returned u.
Proof.
  intros H. unfold Sql.uuid_param, Sql.text_param.
  rewrite (of_string_no_nul _ _ H). cbn [and_then]. now rewrite H.
Qed.

Lemma uuid_param_malformed s :
  of_string s = None ->
  has_nul s = false ->
  Sql.uuid_param s
  = Thrown (Error ("invalid input syntax for type uuid: " ++ DQ ++ s ++ DQ)).
Proof.
  intros H N. unfold Sql.uuid_param, Sql.text_param. rewrite N.
  cbn [and_then]. now rewrite H.
Qed.

Lemma uuid_param_refused s :
  of_string s = None -> exists e, Sql.uuid_param s = Thrown e.
Proof.
  intros H. unfold Sql.uuid_param, Sql.text_param.
  destruct (has_nul s); cbn [and_then]; [eauto|]. rewrite H. eauto.
Qed.

Lemma uuid_param_returned s u :
  Sql.uuid_param s = Returned u -> of_string s = Some u.
Proof.
  destruct (of_string s) as [v|] eqn:H.
  - rewrite (uuid_param_parsed _ _ H). congruence.
  - destruct (uuid_param_refused _ H) as (e & ->). discriminate.
Qed.

End UuidFacts.

Module TodoDatabaseFacts.
Import TodoDatabase.

Lemma filter_none {A} (f : A -> bool) (l : list A) :
  (forall x, In x l -> f x = false) -> List.filter f l = [].
Proof.
  induction l as [|x l IH]; intros H; simpl; [reflexivity|].
  rewrite (H x (or_introl eq_refl)). apply IH. intros y Hy. apply H. now right.
Qed.


Lemma filter_filter_and {A} (f g : A -> bool) (l : list A) :
  List.filter f (List.filter g l) = List.filter (fun x => g x && f x) l.
Proof.
  induction l as [|x l IH]; simpl; [reflexivity|].
  destruct (g x); simpl; [destruct (f x)|]; now rewrite IH.
Qed.

Lemma filter_map_keep {A} (f : A -> bool) (g : A -> A) (l : list A) :
  (forall x, f (g x) = f x) ->
  List.filter f (List.map g l) = List.map g (List.filter f l).
Proof.
  intros Hg. induction l as [|x l IH]; simpl; [reflexivity|].
  rewrite Hg. destruct (f x); simpl; now rewrite IH.
Qed.


Lemma matches_true u userId row :
  matches u userId row = true <-> Row.id row = u /\ Row.user_id row = userId.
Proof.
  unfold matches. rewrite andb_true_iff, UuidFacts.eqb_eq, String.eqb_eq. tauto.
Qed.

Lemma matches_other u userId u' userId' row :
  (u', userId') <> (u, userId) ->
  matches u userId row = true -> matches u' userId' row = false.
Proof.
  intros Hne H. apply matches_true in H. destruct H as [<- <-].
  destruct (matches u' userId' row) eqn:E; [|reflexivity].
  apply matches_true in E. destruct E as [<- <-]. now elim Hne.
Qed.

Lemma no_match_fresh db u userId : fresh_id db u -> no_match db u userId.
Proof.
  intros H r Hr. destruct (matches u userId r) eqn:E; [|reflexivity].
  apply matches_true in E. destruct E as [E _]. now apply H in Hr.
Qed.



(** The one row that [WHERE id = $1 AND user_id = $2] selects under the
    primary key. *)
Lemma filter_matches_unique db r :
  primary_key db -> In r (rows db) ->
  List.filter (matches (Row.id r) (Row.user_id r)) (rows db) = [r].
Proof.
  unfold primary_key. induction (rows db) as [|x l IH]; simpl; [contradiction|].
  intros Hnd Hr. inversion Hnd as [|? ? Hx Hl]; subst.
  destruct Hr as [->|Hr].
  - assert (M : matches (Row.id r) (Row.user_id r) r = true)
      by now apply matches_true.
    rewrite M. f_equal. apply filter_none. intros y Hy.
    destruct (matches (Row.id r) (Row.user_id r) y) eqn:E; [|reflexivity].
    apply matches_true in E. destruct E as [E _].
    exfalso. apply Hx. rewrite <- E. now apply in_map.
  - destruct (matches (Row.id r) (Row.user_id r) x) eqn:E; [|now apply IH].
    apply matches_true in E. destruct E as [E _].
    exfalso. apply Hx. rewrite E. now apply in_map.
Qed.

(** *** The statements once the id is read *)

Lemma getTodoById_parsed id u userId db :
  Uuid.of_string id = Some u ->
  getTodoById id userId db =
    (match fault db with
     | Some m => Thrown (Error m)
     | None =>
         Returned
           match List.filter (matches u userId) (rows db) with
           | [] => None
           | row :: _ => Some (mapRowToTodoItem row)
           end
     end, db).
Proof.
  intros H. unfold getTodoById, bind, connect, lift, select_where, ret.
  rewrite (UuidFacts.uuid_param_parsed _ _ H). destruct (fault db); [reflexivity|].
  now destruct (List.filter (matches u userId) (rows db)).
Qed.

Lemma getTodoById_malformed id userId db :
  Uuid.of_string id = None ->
  has_nul id = false ->
  fault db = None ->
  getTodoById id userId db =
    (Thrown (Error ("invalid input syntax for type uuid: " ++ DQ ++ id ++ DQ)), db).
Proof.
  intros H N F. unfold getTodoById, bind, connect, lift.
  now rewrite (UuidFacts.uuid_param_malformed _ H N), F.
Qed.

Lemma getTodoById_store id userId db : snd (getTodoById id userId db) = db.
Proof.
  unfold getTodoById, bind, connect, lift, select_where, ret.
  destruct (fault db); [reflexivity|].
  destruct (Sql.uuid_param id); [|reflexivity].
  now destruct (List.filter _ (rows db)).
Qed.



Lemma deleteTodo_malformed id userId db :
  Uuid.of_string id = None ->
  has_nul id = false ->
  fault db = None ->
  deleteTodo id userId db =
    (Thrown (Error ("invalid input syntax for type uuid: " ++ DQ ++ id ++ DQ)), db).
Proof.
  intros H N F. unfold deleteTodo, bind, connect, lift.
  now rewrite (UuidFacts.uuid_param_malformed _ H N), F.
Qed.


Section WithRuntime.
Context {RT : JsRuntime}.

(** The values of an update are read the same whatever uuid the id is. *)
Lemma update_params_parsed updates :
  exists values : Outcome Assignment.t,
    forall id u,
      Uuid.of_string id = Some u ->
      update_params id updates = and_then values (fun a => Returned (a, u)).
Proof.
  unfold update_params.
  destruct (checked Sql.text_param (UpdateTodoRequest.title updates)) as [title|e].
  2:{ exists (Thrown e). reflexivity. }
  destruct (checked Sql.text_param (UpdateTodoRequest.description updates))
    as [description|e].
  2:{ exists (Thrown e). reflexivity. }
  destruct (checked date_or_null (UpdateTodoRequest.due_date updates))
    as [due_date|e].
  2:{ exists (Thrown e). reflexivity. }
  destruct (checked (Sql.varchar 255) title) as [title'|e] eqn:E.
  2:{ exists (Thrown e). intros id u H. simpl.
      rewrite (UuidFacts.uuid_param_parsed _ _ H). simpl. now rewrite E. }
  eexists (Returned _). intros id u H. simpl.
  rewrite (UuidFacts.uuid_param_parsed _ _ H). simpl. rewrite E.
  reflexivity.
Qed.

Lemma text_param_ok s : has_nul s = false -> Sql.text_param s = Returned s.
Proof. unfold Sql.text_param. now intros ->. Qed.

Lemma varchar_ok n s : (code_points s <=? n)%nat = true -> Sql.varchar n s = Returned s.
Proof. unfold Sql.varchar. now intros ->. Qed.

Lemma date_or_null_ok s :
  is_date s = true ->
  date_or_null s = Returned (option_map of_Date (due_date_of s)).
Proof.
  unfold is_date, date_or_null, due_date_of.
  destruct (truthy s); simpl; [|reflexivity].
  destruct (Date_parse s); [reflexivity|discriminate].
Qed.

(** The values that the store takes as they are. *)
Lemma update_params_storable id u updates :
  Uuid.of_string id = Some u ->
  storable_update updates = true ->
  update_params id updates =
    Returned
      ({| Assignment.title := UpdateTodoRequest.title updates;
          Assignment.description := UpdateTodoRequest.description updates;
          Assignment.completed := UpdateTodoRequest.completed updates;
          Assignment.priority := UpdateTodoRequest.priority updates;
          Assignment.due_date :=
            option_map (fun s => option_map of_Date (due_date_of s))
                       (UpdateTodoRequest.due_date updates) |}, u).
Proof.
  intros H. unfold storable_update, update_params, fits_varchar.
  rewrite (UuidFacts.uuid_param_parsed _ _ H). destruct updates as [title description completed priority due_date].
  simpl. rewrite !andb_true_iff. intros [[Ht Hd] Hdue].
  destruct title as [title|]; simpl.
  - apply andb_true_iff in Ht. destruct Ht as [Ht1 Ht2].
    apply negb_true_iff in Ht1. rewrite (text_param_ok _ Ht1). simpl.
    destruct description as [description|]; simpl.
    + apply negb_true_iff in Hd. rewrite (text_param_ok _ Hd). simpl.
      destruct due_date as [due_date|]; simpl.
      * rewrite (date_or_null_ok _ Hdue). simpl.
        now rewrite (varchar_ok _ _ Ht2).
      * now rewrite (varchar_ok _ _ Ht2).
    + destruct due_date as [due_date|]; simpl.
      * rewrite (date_or_null_ok _ Hdue). simpl.
        now rewrite (varchar_ok _ _ Ht2).
      * now rewrite (varchar_ok _ _ Ht2).
  - destruct description as [description|]; simpl.
    + apply negb_true_iff in Hd. rewrite (text_param_ok _ Hd). simpl.
      destruct due_date as [due_date|]; simpl; [|reflexivity].
      now rewrite (date_or_null_ok _ Hdue).
    + destruct due_date as [due_date|]; simpl; [|reflexivity].
      now rewrite (date_or_null_ok _ Hdue).
Qed.

(** [updateTodo] on a working store, with at least one field and values
    that the store reads. *)
Lemma updateTodo_written now id updates userId db values u :
  fault db = None ->
  no_set_clauses updates = false ->
  update_params id updates = Returned (values, u) ->
  updateTodo now id updates userId db =
    (let written :=
       List.map (set_clauses values now) (List.filter (matches u userId) (rows db)) in
     (Returned
        match written with
        | [] => None
        | row :: _ => Some (mapRowToTodoItem row)
        end,
      mkDB (List.filter (fun r => negb (matches u userId r)) (rows db) ++ written)
           None)).
Proof.
  intros F Hne Hp. unfold updateTodo, bind, connect, lift, update_where, ret.
  rewrite F, Hne, Hp. simpl. rewrite F.
  now destruct (List.filter (matches u userId) (rows db)).
Qed.

Lemma updateTodo_refused now id updates userId db e :
  fault db = None ->
  no_set_clauses updates = false ->
  update_params id updates = Thrown e ->
  updateTodo now id updates userId db = (Thrown e, db).
Proof.
  intros F Hne Hp. unfold updateTodo, bind, connect, lift.
  now rewrite F, Hne, Hp.
Qed.

Lemma updateTodo_faulty now id updates userId db m :
  fault db = Some m ->
  updateTodo now id updates userId db = (Thrown (Error m), db).
Proof. intros F. unfold updateTodo, bind, connect. now rewrite F. Qed.

Lemma updateTodo_empty now id updates userId db :
  no_set_clauses updates = true ->
  updateTodo now id updates userId db = getTodoById id userId db.
Proof.
  intros Hne. unfold updateTodo, bind, connect. rewrite Hne.
  destruct (fault db) eqn:F; [|reflexivity].
  unfold getTodoById, bind, connect. now rewrite F.
Qed.





(** *** Timestamps under a clock that does not run backwards *)

Lemma insert_params_row newid now todo owner row :
  insert_params newid now todo owner = Returned row ->
  Row.id row = newid
  /\ Row.completed row = false
  /\ Row.created_at row = now
  /\ Row.updated_at row = now
  /\ Row.priority row
     = match CreateTodoRequest.priority todo with
       | Some p => p
       | None => medium
       end
  /\ Sql.varchar 255 (CreateTodoRequest.title todo) = Returned (Row.title row)
  /\ Sql.varchar 255 (UserInfo.id owner) = Returned (Row.user_id row)
  /\ Sql.varchar 255 (UserInfo.email owner) = Returned (Row.user_email row)
  /\ Sql.varchar 255 (UserInfo.name owner) = Returned (Row.user_name row)
  /\ has_nul (CreateTodoRequest.title todo) = false
  /\ has_nul (UserInfo.id owner) = false
  /\ has_nul (UserInfo.email owner) = false
  /\ has_nul (UserInfo.name owner) = false
  /\ (forall d, Row.description row = Some d ->
                CreateTodoRequest.description todo = Some d
                /\ truthy d = true /\ has_nul d = false).
Proof.
  unfold insert_params, Sql.text_param.
  destruct (has_nul (CreateTodoRequest.title todo)) eqn:Ht; [discriminate|].
  cbn [and_then].
  set (description := match CreateTodoRequest.description todo with
                      | Some s => _
                      | None => _
                      end).
  assert (Hd : forall o, description = Returned o ->
                 forall d, o = Some d ->
                   CreateTodoRequest.description todo = Some d
                   /\ truthy d = true /\ has_nul d = false).
  { subst description. destruct (CreateTodoRequest.description todo) as [s|].
    - destruct (truthy s) eqn:T.
      + unfold checked. simpl. destruct (has_nul s) eqn:N; simpl; [discriminate|].
        intros o [= <-] d [= <-]. now repeat split.
      + intros o [= <-] d H. discriminate H.
    - intros o [= <-] d H. discriminate H. }
  destruct description as [o|e]; [|discriminate]. cbn [and_then].
  destruct (match CreateTodoRequest.due_date todo with
            | Some s => date_or_null s
            | None => Returned None
            end) as [due|e]; [|discriminate]. cbn [and_then].
  destruct (has_nul (UserInfo.id owner)) eqn:Hi; [discriminate|]. cbn [and_then].
  destruct (has_nul (UserInfo.email owner)) eqn:He; [discriminate|].
  cbn [and_then].
  destruct (has_nul (UserInfo.name owner)) eqn:Hn; [discriminate|].
  cbn [and_then].
  destruct (Sql.varchar 255 (CreateTodoRequest.title todo)) as [title|e];
    [|discriminate]. cbn [and_then].
  destruct (Sql.varchar 255 (UserInfo.id owner)) as [user_id|e];
    [|discriminate]. cbn [and_then].
  destruct (Sql.varchar 255 (UserInfo.email owner)) as [user_email|e];
    [|discriminate]. cbn [and_then].
  destruct (Sql.varchar 255 (UserInfo.name owner)) as [user_name|e];
    [|discriminate]. cbn [and_then].
  intros [= <-]. simpl. repeat (split; [reflexivity|]).
  exact (Hd o eq_refl).
Qed.

Lemma existsb_fresh db newid :
  existsb (fun r => Uuid.eqb (Row.id r) newid) (rows db) = false <-> fresh_id db newid.
Proof.
  split.
  - intros E r Hr Hid.
    assert (existsb (fun r => Uuid.eqb (Row.id r) newid) (rows db) = true).
    { apply existsb_exists. exists r. split; [exact Hr|]. now apply UuidFacts.eqb_eq. }
    congruence.
  - intros H. destruct (existsb _ (rows db)) eqn:E; [|reflexivity].
    apply existsb_exists in E. destruct E as (r & Hr & E).
    apply UuidFacts.eqb_eq in E. now apply H in Hr.
Qed.

(** [createTodo] throws and leaves the store, or appends the row that the
    store made of its parameters. *)
Lemma createTodo_cases newid now todo owner db :
  (exists e, createTodo newid now todo owner db = (Thrown e, db))
  \/ exists row,
       insert_params newid now todo owner = Returned row
       /\ fault db = None
       /\ fresh_id db newid
       /\ createTodo newid now todo owner db
          = (Returned (mapRowToTodoItem row), mkDB (rows db ++ [row]) None).
Proof.
  unfold createTodo, bind, connect, lift, insert, ret.
  destruct (fault db) eqn:F; [left; eauto|].
  destruct (insert_params newid now todo owner) as [row|e] eqn:E; [|left; eauto].
  destruct (insert_params_row _ _ _ _ _ E) as [Hid _].
  rewrite Hid.
  destruct (existsb _ (rows db)) eqn:X; [left; eauto|].
  right. exists row. split; [reflexivity|]. split; [reflexivity|].
  split; [now apply existsb_fresh|]. now rewrite F.
Qed.

Lemma createTodo_accepted newid now todo owner db row :
  fault db = None ->
  fresh_id db newid ->
  insert_params newid now todo owner = Returned row ->
  createTodo newid now todo owner db
  = (Returned (mapRowToTodoItem row), mkDB (rows db ++ [row]) None).
Proof.
  intros F Hfresh E. unfold createTodo, bind, connect, lift, insert, ret.
  rewrite F, E. destruct (insert_params_row _ _ _ _ _ E) as [Hid _].
  rewrite Hid. apply existsb_fresh in Hfresh. now rewrite Hfresh, F.
Qed.

(** The rows that [updateTodo] leaves: rows that it found, as they were
    or with the [SET] clauses applied. *)
Lemma updateTodo_rows now id updates userId db r' :
  In r' (rows (snd (updateTodo now id updates userId db))) ->
  In r' (rows db)
  \/ exists values r, In r (rows db) /\ r' = set_clauses values now r.
Proof.
  destruct (fault db) eqn:F.
  { rewrite (updateTodo_faulty _ _ _ _ _ _ F). now left. }
  destruct (no_set_clauses updates) eqn:Hne.
  { rewrite (updateTodo_empty _ _ _ _ _ Hne), getTodoById_store. now left. }
  destruct (update_params id updates) as [[values u]|e] eqn:Hp.
  - rewrite (updateTodo_written _ _ _ _ _ _ _ F Hne Hp). simpl.
    intros H. apply in_app_or in H. destruct H as [H|H].
    + apply List.filter_In in H. now left.
    + apply in_map_iff in H. destruct H as (r & <- & H).
      apply List.filter_In in H. right. exists values, r. tauto.
  - rewrite (updateTodo_refused _ _ _ _ _ _ F Hne Hp). now left.
Qed.

Lemma deleteTodo_rows id userId db r' :
  In r' (rows (snd (deleteTodo id userId db))) -> In r' (rows db).
Proof.
  unfold deleteTodo, bind, connect, lift, delete_where, ret.
  destruct (fault db); [tauto|].
  destruct (Sql.uuid_param id); [|tauto]. simpl.
  intros H. now apply List.filter_In in H.
Qed.

(** No row of a store reached at [clock] was written after [clock]. *)
Lemma reached_updated_at clock db :
  reached clock db ->
  forall r, In r (rows db) -> (Row.updated_at r <= clock)%Z.
Proof.
  induction 1 as [clock f | clock db now c Hdb IH Hclock | clock db f Hdb IH];
    [intros r [] | | exact IH].
  intros r Hr. destruct c as [newid todo owner | id updates userId | id userId];
    cbn [run] in Hr.
  - destruct (createTodo_cases newid now todo owner db)
      as [(e & E) | (row & Hrow & _ & _ & E)]; rewrite E in Hr; simpl in Hr.
    + apply IH in Hr. lia.
    + apply in_app_or in Hr. destruct Hr as [Hr|[<-|[]]].
      * apply IH in Hr. lia.
      * destruct (insert_params_row _ _ _ _ _ Hrow) as (_ & _ & _ & -> & _). lia.
  - apply updateTodo_rows in Hr. destruct Hr as [Hr|(values & r0 & _ & ->)].
    + apply IH in Hr. lia.
    + simpl. lia.
  - apply deleteTodo_rows in Hr. apply IH in Hr. lia.
Qed.

Lemma to_Date_le a b : (a <= b)%Z -> (to_Date a <= to_Date b)%Z.
Proof. intros H. unfold to_Date. now apply Z.div_le_mono. Qed.

Lemma getTodoById_found db id userId item db' :
  getTodoById id userId db = (Returned (Some item), db') ->
  fault db = None
  /\ exists u row rest,
       Uuid.of_string id = Some u
       /\ List.filter (matches u userId) (rows db) = row :: rest
       /\ item = mapRowToTodoItem row.
Proof.
  unfold getTodoById, bind, connect, lift, select_where, ret.
  destruct (fault db); [discriminate|].
  destruct (Sql.uuid_param id) as [u|] eqn:Hu; [|discriminate].
  apply UuidFacts.uuid_param_returned in Hu. simpl.
  destruct (List.filter (matches u userId) (rows db)) as [|row rest] eqn:E;
    [discriminate|].
  intros [= <- <-]. split; [reflexivity|]. exists u, row, rest. auto.
Qed.

Lemma filter_matches_written u userId values now l :
  List.filter (matches u userId)
    (List.filter (fun r => negb (matches u userId r)) l
     ++ List.map (set_clauses values now) (List.filter (matches u userId) l))
  = List.map (set_clauses values now) (List.filter (matches u userId) l).
Proof.
  rewrite List.filter_app, filter_filter_and.
  rewrite (filter_none (fun x => negb (matches u userId x) && matches u userId x)).
  2:{ intros x _. now destruct (matches u userId x). }
  rewrite filter_map_keep by reflexivity.
  rewrite filter_filter_and. simpl. f_equal. apply List.filter_ext.
  intros x. now destruct (matches u userId x).
Qed.

(** C3, for values that the store takes and under a clock that does not
    run backwards: [updateTodo] with the empty partial set is
    [getTodoById] and leaves the store as it is; with at least one field it
    returns the item with [updated_at] set to the current time, which is
    not before the prior value in a store whose rows were written at
    earlier times of the clock, and with every field that the partial set
    omits as it was.  The store then holds that item. *)
Theorem updateTodo_empty_reads_else_advances
    (clock now : Z) (db : DB) (id userId : string) :
  reached clock db ->
  (clock <= now)%Z ->
  (updateTodo now id UpdateTodoRequest.empty userId db = getTodoById id userId db
   /\ snd (updateTodo now id UpdateTodoRequest.empty userId db) = db)
  /\ forall updates item,
       no_set_clauses updates = false ->
       storable_update updates = true ->
       getTodoById id userId db = (Returned (Some item), db) ->
       exists item',
         fst (updateTodo now id updates userId db) = Returned (Some item')
         /\ fst (getTodoById id userId (snd (updateTodo now id updates userId db)))
            = Returned (Some item')
         /\ TodoItem.updated_at item' = to_Date now
         /\ (TodoItem.updated_at item <= TodoItem.updated_at item')%Z
         /\ absent_fields_kept updates item item'.
Proof.
  intros Hreached Hclock. split.
  - rewrite (updateTodo_empty now id UpdateTodoRequest.empty userId db eq_refl).
    split; [reflexivity | apply getTodoById_store].
  - intros updates item Hne Hs Hget.
    apply getTodoById_found in Hget.
    destruct Hget as (F & u & row & rest & Hu & Hsel & ->).
    rewrite (updateTodo_written _ _ _ _ _ _ _ F Hne
               (update_params_storable _ _ _ Hu Hs)).
    cbn zeta. cbn [fst snd].
    eexists. split; [rewrite Hsel; reflexivity|]. split.
    { rewrite (getTodoById_parsed _ _ _ _ Hu). cbn [fault rows fst].
      rewrite filter_matches_written, Hsel. reflexivity. }
    split; [reflexivity|]. split.
    { simpl. apply to_Date_le.
      assert (Hin : In row (rows db)).
      { apply (List.filter_In (matches u userId)). rewrite Hsel. now left. }
      pose proof (reached_updated_at _ _ Hreached _ Hin). lia. }
    unfold absent_fields_kept. simpl.
    repeat split; intros E; rewrite E; reflexivity.
Qed.

End WithRuntime.







(** *** The primary key is kept by every statement *)

Lemma NoDup_map_filter (f : Row.t -> bool) (l : list Row.t) :
  List.NoDup (List.map Row.id l) ->
  List.NoDup (List.map Row.id (List.filter f l)).
Proof.
  induction l as [|x l IH]; simpl; intros H; [constructor|].
  inversion H as [|? ? Hx Hl]; subst.
  destruct (f x); simpl; [|now apply IH].
  constructor; [|now apply IH].
  intros Hin. apply in_map_iff in Hin.
  destruct Hin as (y & Hy & Hin). apply List.filter_In in Hin.
  apply Hx. apply in_map_iff. exists y. tauto.
Qed.

Lemma filter_partition_perm {A} (f : A -> bool) (l : list A) :
  Permutation (List.filter (fun x => negb (f x)) l ++ List.filter f l) l.
Proof.
  induction l as [|x l IH]; simpl; [constructor|].
  destruct (f x); simpl.
  - rewrite <- Permutation_middle. now constructor.
  - now constructor.
Qed.

Section PrimaryKey.
Context {RT : JsRuntime}.

Lemma primary_key_deleteTodo db id userId :
  primary_key db -> primary_key (snd (deleteTodo id userId db)).
Proof.
  unfold primary_key, deleteTodo, bind, connect, lift, delete_where, ret.
  destruct (fault db); simpl; [tauto|].
  destruct (Sql.uuid_param id); simpl; [|tauto]. apply NoDup_map_filter.
Qed.

(** The columns that [updateTodo] does not assign are those of the rows
    that were there, in the order in which the store now scans them. *)
Lemma updateTodo_fixed_columns now db id updates userId :
  Permutation
    (List.map fixed_columns (rows (snd (updateTodo now id updates userId db))))
    (List.map fixed_columns (rows db)).
Proof.
  destruct (fault db) eqn:F.
  { now rewrite (updateTodo_faulty _ _ _ _ _ _ F). }
  destruct (no_set_clauses updates) eqn:Hne.
  { now rewrite (updateTodo_empty _ _ _ _ _ Hne), getTodoById_store. }
  destruct (update_params id updates) as [[values u]|e] eqn:Hp.
  - rewrite (updateTodo_written _ _ _ _ _ _ _ F Hne Hp). simpl.
    assert (E : forall l,
               List.map fixed_columns (List.map (set_clauses values now) l)
               = List.map fixed_columns l).
    { intros l. rewrite List.map_map. now apply List.map_ext. }
    rewrite List.map_app, E, <- List.map_app.
    apply Permutation_map, filter_partition_perm.
  - now rewrite (updateTodo_refused _ _ _ _ _ _ F Hne Hp).
Qed.

Lemma primary_key_updateTodo now db id updates userId :
  primary_key db -> primary_key (snd (updateTodo now id updates userId db)).
Proof.
  unfold primary_key. intros H.
  assert (P : Permutation
                (List.map Row.id (rows (snd (updateTodo now id updates userId db))))
                (List.map Row.id (rows db))).
  { pose proof (updateTodo_fixed_columns now db id updates userId) as P.
    apply (Permutation_map (fun c => fst (fst (fst (fst c))))) in P.
    now rewrite !List.map_map in P. }
  apply (Permutation_NoDup (Permutation_sym P) H).
Qed.

Lemma primary_key_createTodo newid now db todo owner :
  primary_key db -> primary_key (snd (createTodo newid now todo owner db)).
Proof.
  intros H.
  destruct (createTodo_cases newid now todo owner db)
    as [(e & E) | (row & Hrow & _ & Hfresh & E)]; rewrite E; [exact H|].
  unfold primary_key. simpl. rewrite List.map_app. simpl.
  apply List.NoDup_app; [exact H | repeat constructor; simpl; tauto |].
  destruct (insert_params_row _ _ _ _ _ Hrow) as (Hid & _).
  intros a Hin [<-|[]]. apply in_map_iff in Hin.
  destruct Hin as (r & Hr & Hin). apply (Hfresh r Hin). congruence.
Qed.

(** A store that calls have left keeps the primary key. *)
Lemma reached_primary_key clock db : reached clock db -> primary_key db.
Proof.
  induction 1 as [clock f | clock db now c Hdb IH Hclock | clock db f Hdb IH].
  - constructor.
  - destruct c; cbn [run].
    + now apply primary_key_createTodo.
    + now apply primary_key_updateTodo.
    + now apply primary_key_deleteTodo.
  - exact IH.
Qed.

End PrimaryKey.

(** *** Listing: count, order and window *)

Lemma insert_desc_perm x l : Permutation (insert_desc x l) (x :: l).
Proof.
  induction l as [|y l IH]; simpl; [reflexivity|].
  destruct (Row.created_at y <=? Row.created_at x)%Z; [reflexivity|].
  rewrite IH. apply perm_swap.
Qed.

Lemma order_by_created_at_desc_perm l :
  Permutation (order_by_created_at_desc l) l.
Proof.
  induction l as [|x l IH]; simpl; [reflexivity|].
  rewrite insert_desc_perm. now constructor.
Qed.

Lemma insert_desc_sorted x l :
  Sorted row_newest_first l -> Sorted row_newest_first (insert_desc x l).
Proof.
  induction l as [|y l IH]; simpl; intros Hs.
  - repeat constructor.
  - destruct (Row.created_at y <=? Row.created_at x)%Z eqn:E.
    + constructor; [exact Hs|]. constructor. now apply Z.leb_le.
    + apply Z.leb_gt in E. inversion Hs as [|? ? Hl Hhd]; subst.
      constructor; [now apply IH|].
      destruct l as [|z l]; simpl.
      * constructor. unfold row_newest_first. lia.
      * destruct (Row.created_at z <=? Row.created_at x)%Z.
        -- constructor. unfold row_newest_first. lia.
        -- inversion Hhd; subst. now constructor.
Qed.

Lemma order_by_created_at_desc_sorted l :
  StronglySorted row_newest_first (order_by_created_at_desc l).
Proof.
  apply Sorted_StronglySorted.
  - intros a b c. unfold row_newest_first. lia.
  - induction l as [|x l IH]; simpl; [constructor|].
    now apply insert_desc_sorted.
Qed.

Lemma StronglySorted_skipn {A} (R : A -> A -> Prop) n l :
  StronglySorted R l -> StronglySorted R (skipn n l).
Proof.
  revert l. induction n as [|n IH]; intros l Hs; [exact Hs|].
  destruct l as [|x l]; [constructor|]. simpl. apply IH.
  now inversion Hs.
Qed.

Lemma StronglySorted_firstn {A} (R : A -> A -> Prop) n l :
  StronglySorted R l -> StronglySorted R (firstn n l).
Proof.
  revert l. induction n as [|n IH]; intros l Hs; [constructor|].
  destruct l as [|x l]; [constructor|]. simpl.
  inversion Hs as [|? ? Hl Hx]; subst. constructor; [now apply IH|].
  rewrite List.Forall_forall in *. intros y Hy. apply Hx.
  rewrite <- (firstn_skipn n l). apply in_or_app. now left.
Qed.

Lemma StronglySorted_map_todo l :
  StronglySorted row_newest_first l ->
  StronglySorted newest_first (List.map mapRowToTodoItem l).
Proof.
  induction 1 as [|x l Hl IH Hx]; simpl; constructor; [exact IH|].
  rewrite List.Forall_forall in *. intros y Hy.
  apply in_map_iff in Hy. destruct Hy as (r & <- & Hr).
  apply to_Date_le, (Hx r Hr).
Qed.

Lemma Qred_whole z : Qred (z # 1) = (z # 1).
Proof. apply Qred_iff. simpl. apply Z.gcd_1_r. Qed.

Section WithRuntime.
Context {RT : JsRuntime}.


(** Whatever [LIMIT] or [OFFSET] accepts is a whole number that is not
    negative. *)
Lemma row_count_returned clause q n :
  Sql.row_count clause q = Returned n -> Sql.to_bigint q = Some (Z.of_nat n).
Proof.
  unfold Sql.row_count. destruct (Sql.to_bigint q) as [z|]; [|discriminate].
  destruct (10 ^ 21 <=? Z.abs z)%Z; [discriminate|].
  destruct ((z <? - 2 ^ 63) || (2 ^ 63 - 1 <? z))%Z; [discriminate|].
  destruct (Z.ltb_spec z 0); [discriminate|].
  intros [= <-]. now rewrite Z2Nat.id.
Qed.

Lemma number_or_limit n : 1 <= n ->
  number_or (Some (Z.of_nat n # 1)) (50 # 1) = (Z.of_nat n # 1).
Proof.
  intros Hn. unfold number_or.
  destruct (Qeq_bool (Z.of_nat n # 1) 0) eqn:E; [|reflexivity].
  apply Qeq_bool_eq in E. unfold Qeq in E. simpl in E. lia.
Qed.




End WithRuntime.

(** *** Searching: [ILIKE] against a substring test *)

Lemma like_percent_unfold p s :
  Sql.like (String "%" p) s
  = Sql.like p s || match s with
                    | EmptyString => false
                    | String _ s' => Sql.like (String "%" p) s'
                    end.
Proof. destruct s; reflexivity. Qed.

Lemma like_percent_only s : Sql.like "%" s = true.
Proof.
  induction s as [|c s IH]; [reflexivity|].
  rewrite like_percent_unfold. rewrite IH. apply orb_true_r.
Qed.

Lemma prefix_cons c p e s :
  String.prefix (String c p) (String e s) = Ascii.eqb c e && String.prefix p s.
Proof.
  simpl. destruct (ascii_dec c e) as [->|Hne].
  - now rewrite Ascii.eqb_refl.
  - apply Ascii.eqb_neq in Hne. now rewrite Hne.
Qed.

(** A text without pattern syntax, followed by [%], matches exactly the
    strings that start with it. *)
Lemma like_literal_then_percent p s :
  no_wildcards p = true -> Sql.like (p ++ "%") s = String.prefix p s.
Proof.
  revert s. induction p as [|c p IH]; intros s Hp.
  - simpl. rewrite like_percent_only. now destruct s.
  - simpl in Hp. rewrite !andb_true_iff, !negb_true_iff in Hp.
    destruct Hp as [[[H1 H2] H3] Hp].
    change (String c p ++ "%") with (String c (p ++ "%")).
    cbn [Sql.like]. rewrite H1, H2, H3.
    destruct s as [|e s]; [reflexivity|].
    rewrite prefix_cons, IH by assumption. reflexivity.
Qed.

Lemma like_substring p s :
  no_wildcards p = true ->
  Sql.like ("%" ++ p ++ "%") s = is_substring p s.
Proof.
  intros Hp. change ("%" ++ p ++ "%") with (String "%" (p ++ "%")).
  induction s as [|e s IH].
  - rewrite like_percent_unfold, like_literal_then_percent by assumption.
    reflexivity.
  - rewrite like_percent_unfold, like_literal_then_percent, IH by assumption.
    reflexivity.
Qed.

Lemma lower_app a b : Sql.lower (a ++ b) = Sql.lower a ++ Sql.lower b.
Proof. induction a as [|c a IH]; simpl; [reflexivity|]. now rewrite IH. Qed.

Lemma lower_ascii_cases c :
  Sql.lower_ascii c = c
  \/ (65 <= nat_of_ascii c <= 90
      /\ Sql.lower_ascii c = ascii_of_nat (nat_of_ascii c + 32)).
Proof.
  unfold Sql.lower_ascii.
  destruct (Nat.leb_spec 65 (nat_of_ascii c)); simpl; [|now left].
  destruct (Nat.leb_spec (nat_of_ascii c) 90); simpl; [|now left].
  right. split; [lia|reflexivity].
Qed.

Lemma lower_ascii_not c (m : ascii) :
  (nat_of_ascii m <? 97)%nat = true ->
  Ascii.eqb c m = false -> Ascii.eqb (Sql.lower_ascii c) m = false.
Proof.
  intros Hm Hc. apply Nat.ltb_lt in Hm. destruct (lower_ascii_cases c) as [->|[Hr ->]]; [exact Hc|].
  apply Ascii.eqb_neq. intros E.
  apply (f_equal nat_of_ascii) in E.
  rewrite nat_ascii_embedding in E by lia. lia.
Qed.

Lemma no_wildcards_lower s :
  no_wildcards s = true -> no_wildcards (Sql.lower s) = true.
Proof.
  induction s as [|c s IH]; simpl; [reflexivity|].
  rewrite !andb_true_iff, !negb_true_iff. intros [[[H1 H2] H3] Hs].
  repeat split; [| | |now apply IH].
  all: apply lower_ascii_not; [reflexivity | assumption].
Qed.

Lemma ilike_contains s text :
  no_wildcards s = true ->
  Sql.ilike text ("%" ++ s ++ "%") = contains_ci s text.
Proof.
  intros Hs. unfold Sql.ilike, contains_ci.
  rewrite !lower_app. change (Sql.lower "%") with "%".
  now apply like_substring, no_wildcards_lower.
Qed.

Lemma is_substring_empty text : is_substring EmptyString text = true.
Proof. destruct text; reflexivity. Qed.

(** For a search text without [%], [_] and backslash the [WHERE] clause
    selects exactly the rows that pass the criteria. *)
Lemma where_clause_passes_filters userId filters row :
  match Filters.search filters with
  | Some s => no_wildcards s = true
  | None => True
  end ->
  where_clause userId filters row = passes_filters userId filters row.
Proof.
  unfold where_clause, passes_filters.
  destruct (Filters.search filters) as [s|]; [|reflexivity].
  intros Hs. f_equal.
  unfold truthy. destruct (String.eqb_spec s EmptyString) as [->|Hne]; simpl.
  - unfold contains_ci. simpl. now rewrite is_substring_empty.
  - rewrite !ilike_contains by assumption.
    destruct (Row.description row); [|reflexivity].
    now rewrite ilike_contains.
Qed.

Section Search.
Context {RT : JsRuntime}.

(** C4: with the search text [_] the statement of [getAllTodos] selects a
    row whose title and description do not contain that text: the total is
    1 where no row of the owner passes the substring criterion. *)
Theorem getAllTodos_search_reads_wildcards :
  let db := mkDB [sample_row "1" "alice" "abc" false None 10] None in
  let filters := Filters.mk None None (Some "_") None None in
  (exists page,
     fst (getAllTodos "alice" filters db) = Returned page
     /\ total page = 1
     /\ List.map TodoItem.title (todos page) = ["abc"])
  /\ length (List.filter (passes_filters "alice" filters) (rows db)) = 0.
Proof.
  split; [|reflexivity].
  eexists. split; [vm_compute; reflexivity|]. split; reflexivity.
Qed.

End Search.

(** *** The statements above on the sample store *)

Lemma sample_db_primary_key : primary_key sample_db.
Proof.
  unfold primary_key. simpl. repeat constructor; simpl; intuition discriminate.
Qed.



Lemma updateTodo_empty_reads_else_advances_witness :
  exists item',
    fst (@updateTodo sample_runtime 30000 (sample_id "2") completed_only "alice"
           sample_history)
    = Returned (Some item')
    /\ TodoItem.updated_at item' = 30%Z
    /\ TodoItem.title item' = "Buy groceries".
Proof.
  assert (Hreached : @reached sample_runtime 15000 sample_history).
  { apply (reached_call 0); [apply reached_empty | lia]. }
  assert (Hclock : (15000 <= 30000)%Z) by lia.
  destruct (@updateTodo_empty_reads_else_advances sample_runtime 15000 30000
              sample_history (sample_id "2") "alice" Hreached Hclock) as [_ H].
  destruct (H completed_only
              (mapRowToTodoItem
                 {| Row.id := sample_uuid "2"; Row.title := "Buy groceries";
                    Row.description := None; Row.completed := false;
                    Row.priority := medium; Row.due_date := None;
                    Row.created_at := 15000; Row.updated_at := 15000;
                    Row.user_id := "alice"; Row.user_email := "alice@example.com";
                    Row.user_name := "Alice" |})
              eq_refl eq_refl eq_refl)
    as (item' & H1 & _ & H3 & _ & H5 & _).
  exists item'. split; [exact H1|]. split; [exact H3|].
  exact (H5 eq_refl).
Defined.

(** C3, as the claim has it, fails: alice has the item with id
    [sample_id "2"], and her update of its title to 256 letters is a
    partial set with one field; it throws and the store stays as it was,
    [updated_at] included. *)
Lemma updateTodo_refuses_a_long_title :
  let updates :=
    UpdateTodoRequest.mk (Some (String_repeat "a" 256)) None None None None in
  no_set_clauses updates = false
  /\ (exists item,
        getTodoById (sample_id "2") "alice" sample_db
        = (Returned (Some item), sample_db)
        /\ TodoItem.updated_at item = to_Date 15)
  /\ @updateTodo sample_runtime 30000 (sample_id "2") updates "alice" sample_db
     = (Thrown (Error "value too long for type character varying(255)"),
        sample_db).
Proof.
  split; [reflexivity|]. split; [|vm_compute; reflexivity].
  eexists. split; reflexivity.
Qed.


End TodoDatabaseFacts.

Module TodoMcpServerFacts.
Import TodoDatabase TodoDatabaseFacts TodoMcpServer.

(** *** Identity *)

(** C10: [extractUserInfo] is a function of the headers alone, and a
    header that holds the empty string gives the same identity as no
    header: the field is the anonymous value, not the empty string. *)
Theorem extractUserInfo_empty_header_is_absent (headers : gmap string string) :
  (extractUserInfo (<["x-forwarded-user" := EmptyString]> headers)
   = extractUserInfo (delete "x-forwarded-user" headers)
   /\ UserInfo.id (extractUserInfo (<["x-forwarded-user" := EmptyString]> headers))
      = "anonymous")
  /\ (extractUserInfo (<["x-forwarded-email" := EmptyString]> headers)
      = extractUserInfo (delete "x-forwarded-email" headers)
      /\ UserInfo.email (extractUserInfo (<["x-forwarded-email" := EmptyString]> headers))
         = "anonymous@example.com")
  /\ (extractUserInfo (<["x-forwarded-name" := EmptyString]> headers)
      = extractUserInfo (delete "x-forwarded-name" headers)
      /\ UserInfo.name (extractUserInfo (<["x-forwarded-name" := EmptyString]> headers))
         = "Anonymous User").
Proof.
  unfold extractUserInfo.
  repeat split; simplify_map_eq; reflexivity.
Qed.

(** *** Tool handlers never throw *)




Section WithRuntime.
Context {RT : JsRuntime}.




(** *** Reading a resource *)

Lemma String_replace_scheme id :
  String_replace "todo://" EmptyString ("todo://" ++ id) = id.
Proof.
  assert (H : String.prefix EmptyString id = true) by now destruct id.
  cbn. destruct id; reflexivity.
Qed.




End WithRuntime.

(** *** Resource links *)

Section ResourceLinks.
Context {RT : JsRuntime}.

(** The descriptor built for an item has the address [todo://<id>], the
    title as name, the media type [application/json] and a description
    made of completion state, priority and due date. *)
Lemma resourceLink_shape (todo : TodoItem.t) :
  ResourceLink.uri (resourceLink todo) = "todo://" ++ TodoItem.id todo
  /\ ResourceLink.name (resourceLink todo) = TodoItem.title todo
  /\ ResourceLink.mimeType (resourceLink todo) = "application/json"
  /\ ResourceLink.description (resourceLink todo)
     = Some ((if TodoItem.completed todo then "Completed" else "Pending")
             ++ " - " ++ Priority_to_string (TodoItem.priority todo) ++ " priority"
             ++ match TodoItem.due_date todo with
                | Some d => " - Due: " ++ toLocaleDateString d
                | None => EmptyString
                end).
Proof. repeat split. Qed.

(** No response of [getTodoResources] holds a descriptor. *)
Lemma getTodoResources_holds_no_link params headers db r db' link :
  getTodoResources params headers db = (Returned r, db') ->
  ~ In (resource_link link) (content r).
Proof.
  unfold getTodoResources, try_catch, bind, lift, failure, ret.
  destruct (Zod.parse (TodoFilterSchema params)) as [filters|e].
  - destruct (getAllTodos _ filters db) as [[page|e] s];
      intros [= <- _]; simpl; intuition discriminate.
  - intros [= <- _]. simpl. intuition discriminate.
Qed.

End ResourceLinks.

(** C7: for a caller with one stored item and no criteria,
    [getTodoResources] answers with two text entries and no resource
    descriptor: the descriptor of the matching item is not in the
    response. *)
Theorem getTodoResources_returns_no_descriptor :
  let db := mkDB [sample_row "1" "alice" "Pay rent" false None 10] None in
  let headers : gmap string string := {[ "x-forwarded-user" := "alice" ]} in
  exists r,
    fst (@getTodoResources sample_runtime (JObj []) headers db) = Returned r
    /\ content r =
         [text_content "📝 Available TODO resources (1 items):";
          text_content (LF ++ "You can read any of these resources using their URI.")]
    /\ forall link, ~ In (resource_link link) (content r).
Proof.
  eexists. split; [vm_compute; reflexivity|]. split; [reflexivity|].
  intros link. simpl. intuition discriminate.
Qed.

(** *** The filter schema *)

Lemma ap_valid {A B} (f : Zod.Parsed (A -> B)) (x : Zod.Parsed A) v :
  f <*> x = Zod.Valid v ->
  exists g a, f = Zod.Valid g /\ x = Zod.Valid a /\ v = g a.
Proof.
  destruct f as [g|i], x as [a|j]; simpl; try discriminate.
  intros [= <-]. now exists g, a.
Qed.

Lemma ap_invalid_r {A B} (f : Zod.Parsed (A -> B)) (i : list ZodIssue) :
  exists issues,
    f <*> Zod.Invalid i = Zod.Invalid issues /\ incl i issues.
Proof.
  destruct f as [g|j]; simpl; eexists; (split; [reflexivity|]).
  - apply incl_refl.
  - apply incl_appr, incl_refl.
Qed.

Lemma ap_invalid_l {A B} (i : list ZodIssue) (x : Zod.Parsed A) :
  exists issues,
    @Zod.ap A B (Zod.Invalid i) x = Zod.Invalid issues /\ incl i issues.
Proof.
  destruct x as [a|j]; simpl; eexists; (split; [reflexivity|]).
  - apply incl_refl.
  - apply incl_appl, incl_refl.
Qed.

Lemma names_field_incl i issues field :
  incl i issues -> names_field i field -> names_field issues field.
Proof. intros Hi (x & Hx & Hp). exists x. split; [now apply Hi | exact Hp]. Qed.

Lemma limit_field (v : option JSON) :
  let parsed :=
    Zod.default (50 # 1)
      (Zod.z_number [Zod.num_min (1 # 1); Zod.num_max (100 # 1)]) "limit" v in
  (limit_in_range v /\ parsed = Zod.Valid (number_value v (50 # 1)))
  \/ (~ limit_in_range v
      /\ exists issues, parsed = Zod.Invalid issues /\ names_field issues "limit").
Proof.
  assert (Hbad : forall issue rest,
             names_field (mkIssue issue ["limit"] None :: rest) "limit").
  { intros. eexists. split; [now left | reflexivity]. }
  destruct v as [j|]; simpl; [|left; split; [now left | reflexivity]].
  destruct j as [ |b|q|t|items|properties];
    try (right; split;
         [intros [H|(q' & H & _)]; discriminate
         | eexists; split; [reflexivity | apply Hbad]]).
  unfold Zod.run_checks, Zod.num_min, Zod.num_max. simpl.
  destruct (Qle_bool (1 # 1) q) eqn:E1, (Qle_bool q (100 # 1)) eqn:E2; simpl.
  - left. split; [|reflexivity]. right. exists q.
    apply Qle_bool_iff in E1, E2. auto.
  - right. split; [|eexists; split; [reflexivity | apply Hbad]].
    intros [H|(q' & [= <-] & _ & H)]; [discriminate|].
    apply Qle_bool_iff in H. congruence.
  - right. split; [|eexists; split; [reflexivity | apply Hbad]].
    intros [H|(q' & [= <-] & H & _)]; [discriminate|].
    apply Qle_bool_iff in H. congruence.
  - right. split; [|eexists; split; [reflexivity | apply Hbad]].
    intros [H|(q' & [= <-] & H & _)]; [discriminate|].
    apply Qle_bool_iff in H. congruence.
Qed.

Lemma offset_field (v : option JSON) :
  let parsed :=
    Zod.default (0 # 1) (Zod.z_number [Zod.num_min (0 # 1)]) "offset" v in
  (offset_in_range v /\ parsed = Zod.Valid (number_value v (0 # 1)))
  \/ (~ offset_in_range v
      /\ exists issues, parsed = Zod.Invalid issues /\ names_field issues "offset").
Proof.
  assert (Hbad : forall issue rest,
             names_field (mkIssue issue ["offset"] None :: rest) "offset").
  { intros. eexists. split; [now left | reflexivity]. }
  destruct v as [j|]; simpl; [|left; split; [now left | reflexivity]].
  destruct j as [ |b|q|t|items|properties];
    try (right; split;
         [intros [H|(q' & H & _)]; discriminate
         | eexists; split; [reflexivity | apply Hbad]]).
  unfold Zod.run_checks, Zod.num_min. simpl.
  destruct (Qle_bool (0 # 1) q) eqn:E1; simpl.
  - left. split; [|reflexivity]. right. exists q.
    apply Qle_bool_iff in E1. auto.
  - right. split; [|eexists; split; [reflexivity | apply Hbad]].
    intros [H|(q' & [= <-] & H)]; [discriminate|].
    apply Qle_bool_iff in H. congruence.
Qed.

Section FilterSchema.
Context {RT : JsRuntime}.

(** What the filter schema accepts: the filter object is accepted only when
    [limit] is left out or is a number from 1 to 100, whole or not, and
    [offset] is left out or is a number that is not negative; the accepted
    values are the numbers given, 50 and 0 when left out.  Any other
    [limit] or [offset] is rejected with an issue whose path is that field,
    and [listTodos] and [getTodoResources] then answer with the message of
    the rejection from any store, a faulty one included, and leave the
    store as it is. *)
Lemma TodoFilterSchema_limit_and_offset (properties : list (string * JSON)) :
  let limit := Zod.property properties "limit" in
  let offset := Zod.property properties "offset" in
  (forall filters,
     TodoFilterSchema (JObj properties) = Zod.Valid filters ->
     limit_in_range limit /\ offset_in_range offset
     /\ Filters.limit filters = Some (number_value limit (50 # 1))
     /\ Filters.offset filters = Some (number_value offset (0 # 1)))
  /\ (~ limit_in_range limit ->
      exists issues,
        TodoFilterSchema (JObj properties) = Zod.Invalid issues
        /\ names_field issues "limit")
  /\ (~ offset_in_range offset ->
      exists issues,
        TodoFilterSchema (JObj properties) = Zod.Invalid issues
        /\ names_field issues "offset")
  /\ (forall issues headers db,
        TodoFilterSchema (JObj properties) = Zod.Invalid issues ->
        listTodos (JObj properties) headers db =
          (Returned {| content :=
                         [text_content ("❌ Error listing TODOs: "
                                        ++ ZodError_message issues)] |}, db)
        /\ getTodoResources (JObj properties) headers db =
             (Returned {| content :=
                            [text_content ("❌ Error getting TODO resources: "
                                           ++ ZodError_message issues)] |}, db)).
Proof.
  intros limit offset.
  pose proof (limit_field limit) as HL. pose proof (offset_field offset) as HO.
  cbv zeta in HL, HO.
  unfold TodoFilterSchema, Zod.z_object. fold limit offset.
  set (L := Zod.default _ _ "limit" limit) in *.
  set (O := Zod.default _ _ "offset" offset) in *.
  set (front := Zod.Valid Filters.mk <*> _ <*> _ <*> _).
  split; [|split; [|split]].
  - intros filters H.
    apply ap_valid in H. destruct H as (g & o & H & HOv & ->).
    apply ap_valid in H. destruct H as (g' & l & H & HLv & ->).
    apply ap_valid in H. destruct H as (g3 & x3 & H & _ & ->).
    apply ap_valid in H. destruct H as (g2 & x2 & H & _ & ->).
    apply ap_valid in H. destruct H as (g1 & x1 & [= <-] & _ & ->).
    destruct HL as [[HLr EL]|[_ (i & E & _)]]; rewrite ?E, ?EL in HLv;
      [|discriminate].
    destruct HO as [[HOr EO]|[_ (i & E & _)]]; rewrite ?E, ?EO in HOv;
      [|discriminate].
    simpl in HLv, HOv. injection HLv as <-. injection HOv as <-.
    repeat split; assumption.
  - intros Hbad. destruct HL as [[H _]|[_ (i & E & Hn)]]; [contradiction|].
    rewrite E. simpl.
    destruct (ap_invalid_r front i) as (i1 & -> & H1).
    destruct (@ap_invalid_l _ Filters.t i1 (Zod.fmap Some O)) as (i2 & -> & H2).
    exists i2. split; [reflexivity|].
    eapply names_field_incl; [|exact Hn]. eapply incl_tran; eauto.
  - intros Hbad. destruct HO as [[H _]|[_ (i & E & Hn)]]; [contradiction|].
    rewrite E. simpl.
    destruct (ap_invalid_r (front <*> Zod.fmap Some L) i) as (i1 & -> & H1).
    exists i1. split; [reflexivity|].
    eapply names_field_incl; eauto.
  - intros issues headers db H. split.
    + unfold listTodos, try_catch, bind, lift, failure, ret.
      unfold TodoFilterSchema, Zod.z_object. fold limit offset L O front.
      rewrite H. reflexivity.
    + unfold getTodoResources, try_catch, bind, lift, failure, ret.
      unfold TodoFilterSchema, Zod.z_object. fold limit offset L O front.
      rewrite H. reflexivity.
Qed.

End FilterSchema.

(** C8: the filter schema accepts a [limit] of 3/2 and an [offset] of
    1/2, which are no integers; [listTodos] then runs its statements and
    the store refuses the value of [LIMIT] or [OFFSET]: the answer is the
    message of the store and no issue that names the field. *)
Theorem TodoFilterSchema_accepts_fractions :
  let by_limit := JObj [("limit", JNum (3 # 2))] in
  let by_offset := JObj [("offset", JNum (1 # 2))] in
  let refusal (text : string) :=
    "invalid input syntax for type bigint: " ++ DQ ++ text ++ DQ in
  is_integer (3 # 2) = false
  /\ is_integer (1 # 2) = false
  /\ TodoFilterSchema by_limit
     = Zod.Valid (Filters.mk None None None (Some (3 # 2)) (Some (0 # 1)))
  /\ TodoFilterSchema by_offset
     = Zod.Valid (Filters.mk None None None (Some (50 # 1)) (Some (1 # 2)))
  /\ @getAllTodos sample_runtime "alice"
       (Filters.mk None None None (Some (3 # 2)) (Some (0 # 1))) sample_db
     = (Thrown (Error (refusal "1.5")), sample_db)
  /\ @listTodos sample_runtime by_limit alice_headers sample_db
     = (Returned
          {| content :=
               [text_content ("❌ Error listing TODOs: " ++ refusal "1.5")] |},
        sample_db)
  /\ @listTodos sample_runtime by_offset alice_headers sample_db
     = (Returned
          {| content :=
               [text_content ("❌ Error listing TODOs: " ++ refusal "0.5")] |},
        sample_db).
Proof. repeat split; vm_compute; reflexivity. Qed.


(** *** The prompt template *)

Lemma append_assoc (a b c : string) : (a ++ b) ++ c = a ++ b ++ c.
Proof.
  induction a as [|x a IH]; [reflexivity|].
  change (String x ((a ++ b) ++ c) = String x (a ++ b ++ c)).
  now f_equal.
Qed.

Lemma prefix_append (m b : string) : String.prefix m (m ++ b) = true.
Proof.
  induction m as [|x m IH]; simpl; [now destruct b|].
  destruct (ascii_dec x x); [exact IH | contradiction].
Qed.

Lemma is_substring_unfold (m h : string) :
  is_substring m h
  = String.prefix m h || match h with
                         | EmptyString => false
                         | String _ h' => is_substring m h'
                         end.
Proof. destruct h; reflexivity. Qed.

Lemma is_substring_middle (a m b : string) : is_substring m (a ++ m ++ b) = true.
Proof.
  induction a as [|x a IH].
  - change (EmptyString ++ m ++ b) with (m ++ b).
    now rewrite is_substring_unfold, prefix_append.
  - change (String x a ++ m ++ b) with (String x (a ++ m ++ b)).
    rewrite is_substring_unfold, IH. apply orb_true_r.
Qed.

Lemma shows_intro (text pre label value post : string) :
  text = pre ++ label ++ value ++ LF ++ post -> shows text label value.
Proof.
  intros ->. unfold shows.
  replace (pre ++ label ++ value ++ LF ++ post)
    with (pre ++ (label ++ value ++ LF) ++ post)
    by (now rewrite !append_assoc).
  apply is_substring_middle.
Qed.

Lemma or_default_supplied s d :
  s <> EmptyString -> or_default (Some s) d = s.
Proof.
  intros H. unfold or_default, truthy.
  apply String.eqb_neq in H. now rewrite H.
Qed.

Lemma or_default_omitted o d :
  o = None \/ o = Some EmptyString -> or_default o d = d.
Proof. now intros [-> | ->]. Qed.

(** C9, as the template has it: [getCreateTodoPrompt] gives exactly one
    message, of role [user]; its text shows every supplied value after the
    label of its field; for a title, description or due date that is left
    out or empty it shows the bracketed placeholder of the field, and for a
    priority that is left out or empty it shows [medium]. *)
Theorem getCreateTodoPrompt_one_user_message (params : PromptParams.t) :
  exists m,
    messages (getCreateTodoPrompt params) = [m]
    /\ PromptMessage.role m = user
    /\ (forall s, PromptParams.title params = Some s -> s <> EmptyString ->
                  shows (PromptMessage.text m) "Title: " s)
    /\ (forall s, PromptParams.description params = Some s -> s <> EmptyString ->
                  shows (PromptMessage.text m) "Description: " s)
    /\ (forall s, PromptParams.priority params = Some s -> s <> EmptyString ->
                  shows (PromptMessage.text m) "Priority: " s)
    /\ (forall s, PromptParams.due_date params = Some s -> s <> EmptyString ->
                  shows (PromptMessage.text m) "Due Date: " s)
    /\ (PromptParams.title params = None
        \/ PromptParams.title params = Some EmptyString ->
        shows (PromptMessage.text m) "Title: " "[Please provide a title]")
    /\ (PromptParams.description params = None
        \/ PromptParams.description params = Some EmptyString ->
        shows (PromptMessage.text m) "Description: " "[Optional description]")
    /\ (PromptParams.priority params = None
        \/ PromptParams.priority params = Some EmptyString ->
        shows (PromptMessage.text m) "Priority: " "medium")
    /\ (PromptParams.due_date params = None
        \/ PromptParams.due_date params = Some EmptyString ->
        shows (PromptMessage.text m) "Due Date: " "[Optional due date]").
Proof.
  eexists. split; [reflexivity|]. split; [reflexivity|].
  cbn [PromptMessage.text].
  set (t := or_default (PromptParams.title params) _).
  set (d := or_default (PromptParams.description params) _).
  set (p := or_default (PromptParams.priority params) _).
  set (dd := or_default (PromptParams.due_date params) _).
  set (intro := "Please help me create a TODO item with the following details:").
  set (outro := "Please provide any additional suggestions or improvements for this TODO item.").
  assert (Ht : forall v, t = v ->
    shows (intro ++ LF ++ "Title: " ++ t ++ LF ++ "Description: " ++ d ++ LF
           ++ "Priority: " ++ p ++ LF ++ "Due Date: " ++ dd ++ LF ++ LF ++ outro)
          "Title: " v).
  { intros v <-. apply (shows_intro _ (intro ++ LF) _ _
                          ("Description: " ++ d ++ LF ++ "Priority: " ++ p ++ LF
                           ++ "Due Date: " ++ dd ++ LF ++ LF ++ outro)).
    now rewrite !append_assoc. }
  assert (Hd : forall v, d = v ->
    shows (intro ++ LF ++ "Title: " ++ t ++ LF ++ "Description: " ++ d ++ LF
           ++ "Priority: " ++ p ++ LF ++ "Due Date: " ++ dd ++ LF ++ LF ++ outro)
          "Description: " v).
  { intros v <-. apply (shows_intro _ (intro ++ LF ++ "Title: " ++ t ++ LF) _ _
                          ("Priority: " ++ p ++ LF
                           ++ "Due Date: " ++ dd ++ LF ++ LF ++ outro)).
    now rewrite !append_assoc. }
  assert (Hp : forall v, p = v ->
    shows (intro ++ LF ++ "Title: " ++ t ++ LF ++ "Description: " ++ d ++ LF
           ++ "Priority: " ++ p ++ LF ++ "Due Date: " ++ dd ++ LF ++ LF ++ outro)
          "Priority: " v).
  { intros v <-. apply (shows_intro _ (intro ++ LF ++ "Title: " ++ t ++ LF
                                       ++ "Description: " ++ d ++ LF) _ _
                          ("Due Date: " ++ dd ++ LF ++ LF ++ outro)).
    now rewrite !append_assoc. }
  assert (Hdd : forall v, dd = v ->
    shows (intro ++ LF ++ "Title: " ++ t ++ LF ++ "Description: " ++ d ++ LF
           ++ "Priority: " ++ p ++ LF ++ "Due Date: " ++ dd ++ LF ++ LF ++ outro)
          "Due Date: " v).
  { intros v <-. apply (shows_intro _ (intro ++ LF ++ "Title: " ++ t ++ LF
                                       ++ "Description: " ++ d ++ LF
                                       ++ "Priority: " ++ p ++ LF) _ _
                          (LF ++ outro)).
    now rewrite !append_assoc. }
  repeat apply conj.
  - intros s E Hs. apply Ht. subst t. rewrite E. now apply or_default_supplied.
  - intros s E Hs. apply Hd. subst d. rewrite E. now apply or_default_supplied.
  - intros s E Hs. apply Hp. subst p. rewrite E. now apply or_default_supplied.
  - intros s E Hs. apply Hdd. subst dd. rewrite E. now apply or_default_supplied.
  - intros E. apply Ht. now apply or_default_omitted.
  - intros E. apply Hd. now apply or_default_omitted.
  - intros E. apply Hp. now apply or_default_omitted.
  - intros E. apply Hdd. now apply or_default_omitted.
Qed.

(** C9, as the claim has it, fails: with every field left out the text
    shows [medium] for the priority and no bracket follows that label. *)
Lemma getCreateTodoPrompt_priority_not_bracketed :
  exists m,
    messages (getCreateTodoPrompt (PromptParams.mk None None None None)) = [m]
    /\ shows (PromptMessage.text m) "Priority: " "medium"
    /\ is_substring "Priority: [" (PromptMessage.text m) = false.
Proof. eexists. split; [reflexivity|]. split; vm_compute; reflexivity. Qed.

Lemma getCreateTodoPrompt_one_user_message_witness :
  exists m,
    messages (getCreateTodoPrompt
                (PromptParams.mk (Some "Buy milk") None None None)) = [m]
    /\ shows (PromptMessage.text m) "Title: " "Buy milk"
    /\ shows (PromptMessage.text m) "Due Date: " "[Optional due date]".
Proof.
  destruct (getCreateTodoPrompt_one_user_message
              (PromptParams.mk (Some "Buy milk") None None None))
    as (m & H1 & _ & H3 & _ & _ & _ & _ & _ & _ & H10).
  exists m. split; [exact H1|]. split.
  - apply (H3 "Buy milk" eq_refl). discriminate.
  - apply H10. now left.
Defined.

End TodoMcpServerFacts.


(** ** Further properties of database.ts *)

Module TodoDatabaseMore.
Import TodoDatabase TodoDatabaseFacts.

Lemma filter_filter_other (f g : Row.t -> bool) (l : list Row.t) :
  (forall r, f r = true -> g r = false) ->
  List.filter f (List.filter (fun r => negb (g r)) l) = List.filter f l.
Proof.
  intros H. induction l as [|x l IH]; simpl; [reflexivity|].
  destruct (g x) eqn:G; simpl.
  - destruct (f x) eqn:F; [|exact IH]. apply H in F. congruence.
  - now rewrite IH.
Qed.

Lemma filter_filter_none (f g : Row.t -> bool) (l : list Row.t) :
  (forall r, f r = true -> g r = false) ->
  List.filter f (List.filter g l) = [].
Proof.
  intros H. induction l as [|x l IH]; simpl; [reflexivity|].
  destruct (g x) eqn:G; simpl; [|exact IH].
  destruct (f x) eqn:F; [|exact IH]. apply H in F. congruence.
Qed.

(** A lookup reads only the rows that its [WHERE] clause selects. *)
Lemma getTodoById_rows id userId rs rs' :
  (forall u, List.filter (matches u userId) rs = List.filter (matches u userId) rs') ->
  forall f, fst (getTodoById id userId (mkDB rs f))
            = fst (getTodoById id userId (mkDB rs' f)).
Proof.
  intros E f. unfold getTodoById, bind, connect, lift, select_where, ret. simpl.
  destruct f; [reflexivity|]. destruct (Sql.uuid_param id) as [u|]; [|reflexivity].
  simpl. rewrite (E u). now destruct (List.filter (matches u userId) rs').
Qed.

Lemma getTodoById_other_rows id u userId rs rs' :
  Uuid.of_string id = Some u ->
  List.filter (matches u userId) rs = List.filter (matches u userId) rs' ->
  forall f, fst (getTodoById id userId (mkDB rs f))
            = fst (getTodoById id userId (mkDB rs' f)).
Proof.
  intros Hu E f. rewrite !(getTodoById_parsed _ _ _ _ Hu). simpl.
  now rewrite E.
Qed.

Lemma getTodoById_malformed_rows id userId rs rs' :
  Uuid.of_string id = None ->
  forall f, fst (getTodoById id userId (mkDB rs f))
            = fst (getTodoById id userId (mkDB rs' f)).
Proof.
  intros Hu f. unfold getTodoById, bind, connect, lift. simpl.
  destruct f; [reflexivity|].
  now destruct (UuidFacts.uuid_param_refused _ Hu) as (e & ->).
Qed.


Section WithRuntime.
Context {RT : JsRuntime}.

Lemma code_points_fits n s : fits_varchar n s = true ->
  has_nul s = false /\ (code_points s <=? n)%nat = true.
Proof.
  unfold fits_varchar. rewrite andb_true_iff, negb_true_iff. tauto.
Qed.

(** The row that the store makes of values that it takes as they are. *)
Lemma insert_params_storable newid now todo owner :
  storable_todo todo = true ->
  storable_user owner = true ->
  insert_params newid now todo owner = Returned (inserted_row newid now todo owner).
Proof.
  unfold storable_todo, storable_user, insert_params, inserted_row.
  rewrite !andb_true_iff. intros [[Ht Hd] Hdue] [[Hi He] Hn].
  apply code_points_fits in Ht. destruct Ht as [Ht1 Ht2].
  apply code_points_fits in Hi. destruct Hi as [Hi1 Hi2].
  apply code_points_fits in He. destruct He as [He1 He2].
  apply code_points_fits in Hn. destruct Hn as [Hn1 Hn2].
  rewrite (text_param_ok _ Ht1). cbn [and_then].
  assert (E1 : match CreateTodoRequest.description todo with
               | Some s =>
                   if truthy s then checked Sql.text_param (Some s)
                   else Returned None
               | None => Returned None
               end
               = Returned
                   match CreateTodoRequest.description todo with
                   | Some s => if truthy s then Some s else None
                   | None => None
                   end).
  { destruct (CreateTodoRequest.description todo) as [s|]; [|reflexivity].
    destruct (truthy s); [|reflexivity]. apply negb_true_iff in Hd.
    unfold checked. now rewrite (text_param_ok _ Hd). }
  rewrite E1. cbn [and_then].
  assert (E2 : match CreateTodoRequest.due_date todo with
               | Some s => date_or_null s
               | None => Returned None
               end
               = Returned
                   match CreateTodoRequest.due_date todo with
                   | Some s => option_map of_Date (due_date_of s)
                   | None => None
                   end).
  { destruct (CreateTodoRequest.due_date todo) as [s|]; [|reflexivity].
    now apply date_or_null_ok. }
  rewrite E2. cbn [and_then].
  rewrite !text_param_ok by assumption. cbn [and_then].
  now rewrite !varchar_ok by assumption.
Qed.

(** X1: on a working store, with an id that is not stored yet and values
    that the store takes as they are, [createTodo] returns an item with the
    text of that id, stamped with the current time in [created_at] and
    [updated_at], not completed, of priority medium unless one is given,
    owned by the given user; the store gains one row, the owner then reads
    that same item by its id, and the lookups of other ids answer as
    before. *)
Theorem createTodo_then_getTodoById
    (newid : Uuid.t) (now : Z) (db : DB) (todo : CreateTodoRequest.t)
    (user : UserInfo.t) :
  fault db = None ->
  fresh_id db newid ->
  storable_todo todo = true ->
  storable_user user = true ->
  exists item db',
    createTodo newid now todo user db = (Returned item, db')
    /\ length (rows db') = S (length (rows db))
    /\ TodoItem.id item = Uuid.to_string newid
    /\ TodoItem.title item = CreateTodoRequest.title todo
    /\ TodoItem.created_at item = to_Date now
    /\ TodoItem.updated_at item = to_Date now
    /\ TodoItem.completed item = false
    /\ TodoItem.priority item
       = match CreateTodoRequest.priority todo with Some p => p | None => medium end
    /\ (TodoItem.user_id item, TodoItem.user_email item, TodoItem.user_name item)
       = (UserInfo.id user, UserInfo.email user, UserInfo.name user)
    /\ getTodoById (TodoItem.id item) (UserInfo.id user) db'
       = (Returned (Some item), db')
    /\ forall id userId,
         Uuid.of_string id <> Some newid ->
         fst (getTodoById id userId db') = fst (getTodoById id userId db).
Proof.
  intros F Hfresh Htodo Huser.
  rewrite (createTodo_accepted _ _ _ _ _ _ F Hfresh
             (insert_params_storable newid now _ _ Htodo Huser)).
  eexists _, _. split; [reflexivity|]. cbn [rows].
  split; [rewrite length_app; simpl; lia|].
  do 7 (split; [reflexivity|]).
  split.
  - cbn [mapRowToTodoItem TodoItem.id inserted_row Row.id].
    rewrite (getTodoById_parsed _ _ _ _ (UuidFacts.of_string_to_string newid)).
    cbn [fault rows]. rewrite List.filter_app.
    rewrite (filter_none (matches newid (UserInfo.id user)) (rows db))
      by now apply no_match_fresh.
    simpl. unfold matches at 1. simpl.
    now rewrite UuidFacts.eqb_refl, String.eqb_refl.
  - intros id userId Hne. destruct db as [rs f]. simpl in F. subst f. cbn [rows].
    destruct (Uuid.of_string id) as [u|] eqn:Hu.
    + apply (getTodoById_other_rows _ _ _ _ _ Hu). rewrite List.filter_app. simpl.
      unfold matches at 2. simpl.
      assert (E : Uuid.eqb newid u = false).
      { apply UuidFacts.eqb_neq. congruence. }
      rewrite E. simpl. now rewrite app_nil_r.
    + now apply getTodoById_malformed_rows.
Qed.

Lemma update_params_id id updates values u :
  update_params id updates = Returned (values, u) -> Uuid.of_string id = Some u.
Proof.
  destruct (Uuid.of_string id) as [u'|] eqn:Hu.
  - destruct (update_params_parsed updates) as (o & Ho).
    rewrite (Ho _ _ Hu). destruct o; simpl; congruence.
  - unfold update_params.
    destruct (UuidFacts.uuid_param_refused _ Hu) as (e & ->).
    destruct (checked Sql.text_param (UpdateTodoRequest.title updates));
      [|discriminate].
    destruct (checked Sql.text_param (UpdateTodoRequest.description updates));
      [|discriminate].
    destruct (checked date_or_null (UpdateTodoRequest.due_date updates));
      discriminate.
Qed.

(** X3: [updateTodo] assigns neither [id], owner nor [created_at] of any
    row and adds or removes none: these columns are those of the rows that
    were there, whatever the order in which the store now scans them; and
    the lookup of any other uuid, or by any other user, answers as
    before. *)
Theorem updateTodo_touches_one_key
    (now : Z) (db : DB) (id : string) (updates : UpdateTodoRequest.t)
    (userId : string) :
  let db' := snd (updateTodo now id updates userId db) in
  Permutation (List.map fixed_columns (rows db')) (List.map fixed_columns (rows db))
  /\ fault db' = fault db
  /\ forall id' userId',
       (Uuid.of_string id', userId') <> (Uuid.of_string id, userId) ->
       fst (getTodoById id' userId' db') = fst (getTodoById id' userId' db).
Proof.
  intros db'. split; [apply updateTodo_fixed_columns|]. subst db'.
  destruct (fault db) eqn:F.
  { rewrite (updateTodo_faulty _ _ _ _ _ _ F). auto. }
  destruct (no_set_clauses updates) eqn:Hne.
  { rewrite (updateTodo_empty _ _ _ _ _ Hne), getTodoById_store. auto. }
  destruct (update_params id updates) as [[values u]|e] eqn:Hp.
  2:{ rewrite (updateTodo_refused _ _ _ _ _ _ F Hne Hp). auto. }
  rewrite (updateTodo_written _ _ _ _ _ _ _ F Hne Hp). cbn zeta. cbn [snd fault].
  split; [reflexivity|].
  intros id' userId' Hother. rewrite (update_params_id _ _ _ _ Hp) in Hother.
  destruct db as [rs f]. simpl in F. subst f. cbn [rows].
  destruct (Uuid.of_string id') as [u'|] eqn:Hu'.
  - apply (getTodoById_other_rows _ _ _ _ _ Hu').
    assert (Hm : forall r, matches u' userId' r = true -> matches u userId r = false).
    { intros r. apply matches_other. congruence. }
    rewrite List.filter_app, (filter_filter_other _ _ _ Hm).
    rewrite filter_map_keep by reflexivity.
    rewrite (filter_filter_none _ _ _ Hm). simpl. apply app_nil_r.
  - now apply getTodoById_malformed_rows.
Qed.

Lemma to_Date_of_Date d : to_Date (of_Date d) = d.
Proof. unfold to_Date, of_Date. now apply Z.div_mul. Qed.

(** X4: when the caller owns the item, the partial set names at least one
    field and the store takes its values as they are, [updateTodo] returns
    the item with each named field set to the given value; an empty
    [due_date] clears the due date, while an empty [description] is stored
    as it is. *)
Theorem updateTodo_sets_named_fields
    (now : Z) (db : DB) (id : string) (updates : UpdateTodoRequest.t)
    (userId : string) (item : TodoItem.t) :
  getTodoById id userId db = (Returned (Some item), db) ->
  no_set_clauses updates = false ->
  storable_update updates = true ->
  exists item',
    fst (updateTodo now id updates userId db) = Returned (Some item')
    /\ (forall s, UpdateTodoRequest.title updates = Some s ->
                  TodoItem.title item' = s)
    /\ (forall s, UpdateTodoRequest.description updates = Some s ->
                  TodoItem.description item' = Some s)
    /\ (forall b, UpdateTodoRequest.completed updates = Some b ->
                  TodoItem.completed item' = b)
    /\ (forall p, UpdateTodoRequest.priority updates = Some p ->
                  TodoItem.priority item' = p)
    /\ (forall s, UpdateTodoRequest.due_date updates = Some s ->
                  TodoItem.due_date item'
                  = if String.eqb s EmptyString then None else Date_parse s).
Proof.
  intros Hget Hne Hs. apply getTodoById_found in Hget.
  destruct Hget as (F & u & row & rest & Hu & Hsel & ->).
  rewrite (updateTodo_written _ _ _ _ _ _ _ F Hne
             (update_params_storable _ _ _ Hu Hs)).
  cbn zeta. cbn [fst]. rewrite Hsel. cbn [List.map].
  eexists. split; [reflexivity|].
  repeat split; intros x E; simpl; rewrite E; try reflexivity.
  simpl. unfold due_date_of, truthy.
  destruct (String.eqb x EmptyString); [reflexivity|]. simpl.
  destruct (Date_parse x); [|reflexivity]. simpl. now rewrite to_Date_of_Date.
Qed.

(** *** Values that the store refuses *)

Lemma varchar_refused s :
  refused_varchar s = true -> has_nul s = false ->
  Sql.varchar 255 s
  = Thrown (Error "value too long for type character varying(255)").
Proof.
  unfold refused_varchar, Sql.varchar. intros H N. rewrite N in H. simpl in H.
  apply andb_true_iff in H. destruct H as [H1 H2].
  apply negb_true_iff in H1, H2. now rewrite H1, H2.
Qed.

Lemma checked_text_param o :
  (exists e, checked Sql.text_param o = Thrown e)
  \/ checked Sql.text_param o = Returned o.
Proof.
  destruct o as [s|]; [|now right]. unfold checked, Sql.text_param.
  destruct (has_nul s); simpl; [left; eauto | now right].
Qed.

(** X23: on a working store, a title with a NUL byte, or with more than
    255 characters of which those in excess are not all spaces, makes
    [createTodo] and [updateTodo] throw, and the store is left as it
    was. *)
Theorem refused_title_changes_nothing
    (newid : Uuid.t) (now : Z) (id userId : string) (db : DB)
    (todo : CreateTodoRequest.t) (updates : UpdateTodoRequest.t)
    (user : UserInfo.t) :
  fault db = None ->
  (refused_varchar (CreateTodoRequest.title todo) = true ->
   exists e, createTodo newid now todo user db = (Thrown e, db))
  /\ (forall title,
        UpdateTodoRequest.title updates = Some title ->
        refused_varchar title = true ->
        exists e, updateTodo now id updates userId db = (Thrown e, db)).
Proof.
  intros F. split.
  - intros H.
    destruct (createTodo_cases newid now todo user db)
      as [He | (row & Hrow & _)]; [exact He|].
    destruct (insert_params_row _ _ _ _ _ Hrow)
      as (_ & _ & _ & _ & _ & Ht & _ & _ & _ & Hnul & _).
    rewrite (varchar_refused _ H Hnul) in Ht. discriminate Ht.
  - intros title Ht H.
    assert (Hne : no_set_clauses updates = false).
    { unfold no_set_clauses. now rewrite Ht. }
    destruct (update_params id updates) as [[values u]|e] eqn:Hp.
    2:{ exists e. now apply updateTodo_refused. }
    exfalso. revert Hp. unfold update_params. rewrite Ht.
    unfold checked at 1. unfold Sql.text_param at 1.
    destruct (has_nul title) eqn:N; [discriminate|]. cbn [and_then].
    destruct (checked_text_param (UpdateTodoRequest.description updates))
      as [(e & ->) | ->]; [discriminate|]. cbn [and_then].
    destruct (checked date_or_null (UpdateTodoRequest.due_date updates));
      [|discriminate]. cbn [and_then].
    destruct (Sql.uuid_param id); [|discriminate]. cbn [and_then].
    unfold checked. rewrite (varchar_refused _ H N). discriminate.
Qed.

End WithRuntime.

(** *** Listing *)

Lemma in_firstn {A} (n : nat) (l : list A) (x : A) : In x (firstn n l) -> In x l.
Proof.
  intros H. rewrite <- (firstn_skipn n l). apply in_or_app. now left.
Qed.

Lemma in_skipn {A} (n : nat) (l : list A) (x : A) : In x (skipn n l) -> In x l.
Proof.
  intros H. rewrite <- (firstn_skipn n l). apply in_or_app. now right.
Qed.

Lemma length_firstn_skipn_le {A} (n m : nat) (l : list A) :
  length (firstn n (skipn m l)) <= n
  /\ length (firstn n (skipn m l)) <= length l.
Proof.
  rewrite length_firstn, length_skipn. lia.
Qed.

Lemma where_clause_meets userId filters row :
  where_clause userId filters row = true ->
  meets_criteria userId filters (mapRowToTodoItem row).
Proof.
  unfold where_clause, meets_criteria. rewrite !andb_true_iff.
  intros [[[Hu Hc] Hp] _]. simpl. split; [now apply String.eqb_eq|].
  split.
  - intros b E. rewrite E in Hc. now apply Bool.eqb_prop.
  - intros p E. rewrite E in Hp.
    destruct (Row.priority row), p; simpl in Hp; congruence.
Qed.

Lemma to_bigint_whole z : Sql.to_bigint (z # 1) = Some z.
Proof. unfold Sql.to_bigint. now rewrite Qred_whole. Qed.

Section Listing.
Context {RT : JsRuntime}.

(** What [getAllTodos] returns, whenever it returns. *)
Lemma getAllTodos_returned userId filters db page db' :
  getAllTodos userId filters db = (Returned page, db') ->
  db' = db
  /\ exists l o,
       Sql.row_count "LIMIT" (number_or (Filters.limit filters) (50 # 1))
       = Returned l
       /\ Sql.row_count "OFFSET" (number_or (Filters.offset filters) (0 # 1))
          = Returned o
       /\ page =
            mkPage
              (List.map mapRowToTodoItem
                 (firstn l
                    (skipn o
                       (order_by_created_at_desc
                          (List.filter (where_clause userId filters) (rows db))))))
              (length (List.filter (where_clause userId filters) (rows db))).
Proof.
  unfold getAllTodos, bind, connect, select_where, lift, ret.
  destruct (fault db); [discriminate|].
  destruct (search_param filters); [|discriminate].
  destruct (Sql.row_count "LIMIT" (number_or (Filters.limit filters) (50 # 1)))
    as [l|e]; [|discriminate].
  destruct (Sql.row_count "OFFSET" (number_or (Filters.offset filters) (0 # 1)))
    as [o|e]; [|discriminate].
  intros [= <- <-]. split; [reflexivity|]. now exists l, o.
Qed.

(** X5: whatever page [getAllTodos] returns holds only items of the given
    user that have the [completed] and [priority] values asked for, and
    the store is left as it was. *)
Theorem getAllTodos_only_own_matching
    (userId : string) (filters : Filters.t) (db db' : DB) (page : TodosPage) :
  getAllTodos userId filters db = (Returned page, db') ->
  db' = db /\ List.Forall (meets_criteria userId filters) (todos page).
Proof.
  intros H. apply getAllTodos_returned in H.
  destruct H as (-> & l & o & _ & _ & ->). split; [reflexivity|].
  simpl. apply List.Forall_forall. intros t Ht.
  apply in_map_iff in Ht. destruct Ht as (r & <- & Hr).
  apply in_firstn, in_skipn in Hr.
  apply (Permutation_in _ (order_by_created_at_desc_perm _)) in Hr.
  apply List.filter_In in Hr. now apply where_clause_meets.
Qed.

(** X6: a returned page never holds more items than [total]; it holds at
    most 50 when no [limit] is given, and at most [n] for a [limit] of
    [n >= 1]. *)
Theorem getAllTodos_page_size
    (userId : string) (filters : Filters.t) (db db' : DB) (page : TodosPage) :
  getAllTodos userId filters db = (Returned page, db') ->
  length (todos page) <= total page
  /\ (Filters.limit filters = None -> length (todos page) <= 50)
  /\ (forall n, Filters.limit filters = Some (Z.of_nat n # 1) -> 1 <= n ->
                length (todos page) <= n).
Proof.
  intros H. apply getAllTodos_returned in H.
  destruct H as (_ & l & o & Hl & _ & ->). simpl.
  rewrite length_map.
  pose proof (length_firstn_skipn_le l o
                (order_by_created_at_desc
                   (List.filter (where_clause userId filters) (rows db))))
    as [H1 H2].
  rewrite (Permutation_length (order_by_created_at_desc_perm _)) in H2.
  apply row_count_returned in Hl.
  split; [exact H2|]. split.
  - intros E. rewrite E in Hl. simpl in Hl.
    rewrite to_bigint_whole in Hl. injection Hl as Hl.
    assert (l = 50) as -> by lia. exact H1.
  - intros n E Hn. rewrite E, number_or_limit, to_bigint_whole in Hl
      by assumption.
    injection Hl as Hl. assert (l = n) as -> by lia. exact H1.
Qed.


End Listing.

(** *** Statistics after a change *)

Lemma length_filter_split {A} (f p : A -> bool) (l : list A) :
  length (List.filter p l)
  = length (List.filter p (List.filter (fun x => negb (f x)) l))
    + length (List.filter p (List.filter f l)).
Proof.
  induction l as [|x l IH]; simpl; [reflexivity|].
  destruct (f x); simpl; destruct (p x); simpl; lia.
Qed.

Section WithRuntime.
Context {RT : JsRuntime}.

(** X8: after [createTodo] on a working store, with an id not stored yet
    and values that the store takes as they are, the statistics of the
    owner count one item more, and it is pending; the statistics of every
    other user are as before. *)
Theorem createTodo_adds_one_pending
    (newid : Uuid.t) (now at_time : Z) (db : DB) (todo : CreateTodoRequest.t)
    (user : UserInfo.t) :
  fault db = None ->
  fresh_id db newid ->
  storable_todo todo = true ->
  storable_user user = true ->
  let db' := snd (createTodo newid now todo user db) in
  exists stats stats',
    getTodoStats at_time (UserInfo.id user) db = (Returned stats, db)
    /\ getTodoStats at_time (UserInfo.id user) db' = (Returned stats', db')
    /\ Stats.total stats' = S (Stats.total stats)
    /\ Stats.pending stats' = S (Stats.pending stats)
    /\ Stats.completed stats' = Stats.completed stats
    /\ forall other,
         other <> UserInfo.id user ->
         fst (getTodoStats at_time other db') = fst (getTodoStats at_time other db).
Proof.
  intros F Hfresh Htodo Huser.
  rewrite (createTodo_accepted _ _ _ _ _ _ F Hfresh
             (insert_params_storable newid now _ _ Htodo Huser)).
  cbv zeta. cbn [snd].
  unfold getTodoStats, bind, connect, select_where, ret. rewrite F. cbn [fault rows].
  eexists _, _. split; [reflexivity|]. split; [reflexivity|]. simpl.
  rewrite List.filter_app. simpl. rewrite String.eqb_refl.
  rewrite !List.filter_app, !length_app. simpl.
  repeat split; try lia.
  intros other Hne. rewrite List.filter_app. simpl.
  destruct (String.eqb_spec (UserInfo.id user) other) as [E'|_];
    [congruence|].
  now rewrite app_nil_r.
Qed.

(** X9: when the caller owns an item that is not completed, the update
    [{ completed: true }] moves one item of the caller's statistics from
    pending to completed, leaves the total alone and takes the item out of
    the overdue count if it was in it. *)
Theorem completing_moves_pending_to_completed
    (now at_time : Z) (db : DB) (id userId : string) (r0 : Row.t) :
  fault db = None ->
  primary_key db ->
  In r0 (rows db) ->
  Uuid.of_string id = Some (Row.id r0) ->
  Row.user_id r0 = userId ->
  Row.completed r0 = false ->
  let db' := snd (updateTodo now id completed_only userId db) in
  exists stats stats',
    getTodoStats at_time userId db = (Returned stats, db)
    /\ getTodoStats at_time userId db' = (Returned stats', db')
    /\ Stats.total stats' = Stats.total stats
    /\ Stats.completed stats' = S (Stats.completed stats)
    /\ S (Stats.pending stats') = Stats.pending stats
    /\ Stats.overdue stats' + (if is_overdue at_time r0 then 1 else 0)
       = Stats.overdue stats.
Proof.
  intros F Hpk Hin Hid Hown Hc. subst userId.
  rewrite (updateTodo_written now id completed_only _ db _ _ F eq_refl
             (update_params_storable _ _ completed_only Hid eq_refl)).
  cbv zeta. cbn [snd]. rewrite (filter_matches_unique _ _ Hpk Hin).
  unfold getTodoStats, bind, connect, select_where, ret. rewrite F. cbn [fault rows].
  eexists _, _. split; [reflexivity|]. split; [reflexivity|].
  cbn [Stats.total Stats.completed Stats.pending Stats.overdue].
  set (m := matches (Row.id r0) (Row.user_id r0)).
  rewrite !filter_filter_and.
  rewrite (length_filter_split m (fun r => String.eqb (Row.user_id r) (Row.user_id r0))
             (rows db)).
  rewrite (length_filter_split m
             (fun r => String.eqb (Row.user_id r) (Row.user_id r0) && Row.completed r)
             (rows db)).
  rewrite (length_filter_split m
             (fun r => String.eqb (Row.user_id r) (Row.user_id r0)
                       && negb (Row.completed r))
             (rows db)).
  rewrite (length_filter_split m
             (fun r => String.eqb (Row.user_id r) (Row.user_id r0)
                       && is_overdue at_time r)
             (rows db)).
  subst m. rewrite (filter_matches_unique _ _ Hpk Hin).
  rewrite !List.filter_app, !length_app. simpl.
  rewrite String.eqb_refl, Hc. simpl.
  destruct (is_overdue at_time r0); simpl; repeat split; lia.
Qed.

End WithRuntime.

(** *** The statements above on the sample store *)

Lemma sample_db_fresh_9 : fresh_id sample_db (sample_uuid "9").
Proof. intros r [<-|[<-|[]]]; discriminate. Qed.


Lemma createTodo_then_getTodoById_witness :
  exists item db',
    @createTodo sample_runtime (sample_uuid "9") 40000
      (CreateTodoRequest.mk "New" None None None) alice sample_db
    = (Returned item, db')
    /\ TodoItem.id item = sample_id "9"
    /\ getTodoById (sample_id "9") "alice" db' = (Returned (Some item), db').
Proof.
  destruct (@createTodo_then_getTodoById sample_runtime (sample_uuid "9") 40000
              sample_db (CreateTodoRequest.mk "New" None None None) alice
              eq_refl sample_db_fresh_9 eq_refl eq_refl)
    as (item & db' & H1 & _ & H3 & _ & _ & _ & _ & _ & _ & H10 & _).
  exists item, db'. split; [exact H1|]. split; [exact H3|].
  rewrite H3 in H10. exact H10.
Defined.

Lemma updateTodo_touches_one_key_witness :
  fst (getTodoById (sample_id "1") "bob"
         (snd (@updateTodo sample_runtime 40000 (sample_id "2") completed_only
                 "alice" sample_db)))
  = fst (getTodoById (sample_id "1") "bob" sample_db).
Proof.
  apply (proj2 (proj2 (@updateTodo_touches_one_key sample_runtime 40000 sample_db
                         (sample_id "2") completed_only "alice"))).
  discriminate.
Defined.

Lemma updateTodo_sets_named_fields_witness :
  exists item',
    fst (@updateTodo sample_runtime 40000 (sample_id "2")
           (UpdateTodoRequest.mk (Some "Buy bread") None None None (Some EmptyString))
           "alice" sample_db)
    = Returned (Some item')
    /\ TodoItem.title item' = "Buy bread"
    /\ TodoItem.due_date item' = None.
Proof.
  destruct (@updateTodo_sets_named_fields sample_runtime 40000 sample_db
              (sample_id "2")
              (UpdateTodoRequest.mk (Some "Buy bread") None None None
                 (Some EmptyString))
              "alice"
              (mapRowToTodoItem
                 (sample_row "2" "alice" "Buy groceries" false (Some 20%Z) 15))
              eq_refl eq_refl eq_refl)
    as (item' & H1 & H2 & _ & _ & _ & H6).
  exists item'. split; [exact H1|]. split.
  - exact (H2 _ eq_refl).
  - exact (H6 _ eq_refl).
Defined.

Lemma refused_title_changes_nothing_witness :
  @createTodo sample_runtime (sample_uuid "9") 40000
    (CreateTodoRequest.mk (String Ascii.zero "x") None None None) alice sample_db
  = (Thrown (Error ("invalid byte sequence for encoding "
                    ++ DQ ++ "UTF8" ++ DQ ++ ": 0x00")), sample_db)
  /\ exists e,
       @updateTodo sample_runtime 40000 (sample_id "2")
         (UpdateTodoRequest.mk (Some (String_repeat "é" 256)) None None None None)
         "alice" sample_db
       = (Thrown e, sample_db).
Proof.
  split; [reflexivity|].
  exact (proj2 (@refused_title_changes_nothing sample_runtime (sample_uuid "9")
                  40000 (sample_id "2") "alice" sample_db sample_todo
                  (UpdateTodoRequest.mk (Some (String_repeat "é" 256)) None None
                     None None)
                  alice eq_refl)
           (String_repeat "é" 256) eq_refl eq_refl).
Defined.

Lemma getAllTodos_only_own_matching_witness :
  exists page,
    @getAllTodos sample_runtime "alice" (Filters.mk (Some false) None None None None)
      sample_db
    = (Returned page, sample_db)
    /\ List.Forall
         (meets_criteria "alice" (Filters.mk (Some false) None None None None))
         (todos page).
Proof.
  assert (H : @getAllTodos sample_runtime "alice"
                (Filters.mk (Some false) None None None None) sample_db
              = (Returned
                   (mkPage
                      [mapRowToTodoItem
                         (sample_row "2" "alice" "Buy groceries" false
                            (Some 20%Z) 15)] 1),
                 sample_db))
    by (vm_compute; reflexivity).
  eexists. split; [exact H|].
  exact (proj2 (getAllTodos_only_own_matching _ _ _ _ _ H)).
Defined.

Lemma getAllTodos_page_size_witness :
  exists page,
    @getAllTodos sample_runtime "alice" (Filters.mk None None None None None)
      sample_db
    = (Returned page, sample_db)
    /\ length (todos page) <= total page
    /\ length (todos page) <= 50.
Proof.
  assert (H : @getAllTodos sample_runtime "alice"
                (Filters.mk None None None None None) sample_db
              = (Returned
                   (mkPage
                      [mapRowToTodoItem
                         (sample_row "2" "alice" "Buy groceries" false
                            (Some 20%Z) 15)] 1),
                 sample_db))
    by (vm_compute; reflexivity).
  eexists. split; [exact H|].
  destruct (getAllTodos_page_size _ _ _ _ _ H) as (H1 & H2 & _).
  exact (conj H1 (H2 eq_refl)).
Defined.


Lemma createTodo_adds_one_pending_witness :
  exists stats stats',
    getTodoStats 30 "alice" sample_db = (Returned stats, sample_db)
    /\ fst (getTodoStats 30 "alice"
              (snd (@createTodo sample_runtime (sample_uuid "9") 40000
                      (CreateTodoRequest.mk "New" None None None) alice
                      sample_db)))
       = Returned stats'
    /\ Stats.total stats' = S (Stats.total stats)
    /\ Stats.pending stats' = S (Stats.pending stats).
Proof.
  destruct (@createTodo_adds_one_pending sample_runtime (sample_uuid "9") 40000 30
              sample_db (CreateTodoRequest.mk "New" None None None) alice
              eq_refl sample_db_fresh_9 eq_refl eq_refl)
    as (stats & stats' & H1 & H2 & H3 & H4 & _).
  exists stats, stats'. split; [exact H1|]. split; [|exact (conj H3 H4)].
  exact (f_equal fst H2).
Defined.

Lemma completing_moves_pending_to_completed_witness :
  exists stats stats',
    getTodoStats 30 "alice" sample_db = (Returned stats, sample_db)
    /\ fst (getTodoStats 30 "alice"
              (snd (@updateTodo sample_runtime 40 (sample_id "2") completed_only
                      "alice" sample_db)))
       = Returned stats'
    /\ Stats.completed stats' = S (Stats.completed stats)
    /\ S (Stats.overdue stats') = Stats.overdue stats.
Proof.
  destruct (@completing_moves_pending_to_completed sample_runtime 40 30
              sample_db (sample_id "2") "alice"
              (sample_row "2" "alice" "Buy groceries" false (Some 20%Z) 15)
              eq_refl sample_db_primary_key)
    as (stats & stats' & H1 & H2 & _ & H4 & _ & H6);
    [simpl; auto | reflexivity | reflexivity | reflexivity |].
  exists stats, stats'. split; [exact H1|]. split; [exact (f_equal fst H2)|].
  split; [exact H4|]. simpl in H6. lia.
Defined.

End TodoDatabaseMore.

(** ** Further properties of mcp-server.ts and index.ts *)

Module TodoMcpServerMore.
Import TodoDatabase TodoDatabaseFacts TodoDatabaseMore.
Import TodoMcpServer TodoMcpServerFacts.

(** *** Handlers that only read *)

Lemma leaves_store_ret {A} (a : A) : leaves_store (ret a).
Proof. intros db. reflexivity. Qed.

Lemma leaves_store_throw {A} (e : Exn) : leaves_store (@throw DB A e).
Proof. intros db. reflexivity. Qed.

Lemma leaves_store_lift {A} (o : Outcome A) : leaves_store (lift o).
Proof. intros db. reflexivity. Qed.

Lemma leaves_store_bind {A B} (m : M DB A) (k : A -> M DB B) :
  leaves_store m -> (forall a, leaves_store (k a)) -> leaves_store (bind m k).
Proof.
  intros Hm Hk db. unfold bind. specialize (Hm db).
  destruct (m db) as [[a|e] s]; simpl in *; subst s; [apply Hk | reflexivity].
Qed.

Lemma leaves_store_try_catch {A} (body : M DB A) (handler : Exn -> M DB A) :
  leaves_store body -> (forall e, leaves_store (handler e)) ->
  leaves_store (try_catch body handler).
Proof.
  intros Hm Hk db. unfold try_catch. specialize (Hm db).
  destruct (body db) as [[a|e] s]; simpl in *; subst s; [reflexivity | apply Hk].
Qed.

Lemma leaves_store_getTodoById id userId : leaves_store (getTodoById id userId).
Proof. intros db. apply getTodoById_store. Qed.

Lemma leaves_store_getTodoStats now userId :
  leaves_store (TodoDatabase.getTodoStats now userId).
Proof.
  intros db. unfold TodoDatabase.getTodoStats, bind, connect, select_where, ret.
  now destruct (fault db).
Qed.

Section WithRuntime.
Context {RT : JsRuntime}.

Lemma leaves_store_getAllTodos userId filters :
  leaves_store (getAllTodos userId filters).
Proof.
  intros db. unfold getAllTodos, bind, connect, select_where, lift, ret.
  destruct (fault db); [reflexivity|].
  destruct (search_param filters); [|reflexivity].
  destruct (Sql.row_count "LIMIT" (number_or (Filters.limit filters) (50 # 1)));
    [|reflexivity].
  now destruct (Sql.row_count "OFFSET" (number_or (Filters.offset filters) (0 # 1))).
Qed.

Lemma leaves_store_failure prefix e : leaves_store (failure prefix e).
Proof. intros db. reflexivity. Qed.

Ltac reads_only :=
  repeat first
    [ apply leaves_store_getTodoById
    | apply leaves_store_getAllTodos
    | apply leaves_store_getTodoStats
    | apply leaves_store_try_catch
    | apply leaves_store_bind
    | apply leaves_store_lift
    | apply leaves_store_failure
    | apply leaves_store_ret
    | apply leaves_store_throw
    | match goal with
      | |- forall _, _ => intros ?
      | |- leaves_store (let _ := _ in _) => cbv zeta
      | |- leaves_store (match ?x with _ => _ end) => destruct x
      end ].

(** X10: [getTodo], [listTodos], [getTodoStats], [getTodoResources] and
    [readTodoResource] leave the store as they find it, on every
    argument, every header map and every store. *)
Theorem reading_handlers_leave_the_store
    (now : Z) (params : JSON) (uri : string) (headers : gmap string string) :
  leaves_store (getTodo params headers)
  /\ leaves_store (listTodos params headers)
  /\ leaves_store (getTodoStats now params headers)
  /\ leaves_store (getTodoResources params headers)
  /\ leaves_store (readTodoResource uri headers).
Proof.
  repeat apply conj.
  - unfold getTodo. reads_only.
  - unfold listTodos. reads_only.
  - unfold getTodoStats. reads_only.
  - unfold getTodoResources. reads_only.
  - unfold readTodoResource. reads_only.
Qed.

(** *** Arguments without a usable id *)

Lemma IdSchema_not_a_string properties :
  (forall s, Zod.property properties "id" <> Some (JStr s)) ->
  IdSchema (JObj properties) = Zod.Invalid [mkIssue invalid_type ["id"] None].
Proof.
  intros H. unfold IdSchema, Zod.z_object, Zod.z_string.
  destruct (Zod.property properties "id") as [[ | | |s| | ]|];
    try reflexivity.
  now destruct (H s).
Qed.

Lemma IdSchema_string properties id :
  Zod.property properties "id" = Some (JStr id) ->
  IdSchema (JObj properties) = Zod.Valid id.
Proof.
  intros H. unfold IdSchema, Zod.z_object, Zod.z_string. now rewrite H.
Qed.

Lemma updateTodo_without_id now properties headers db :
  (forall s, Zod.property properties "id" <> Some (JStr s)) ->
  exists issues,
    names_field issues "id"
    /\ updateTodo now (JObj properties) headers db
       = (Returned (rejection "❌ Error updating TODO: " issues), db).
Proof.
  intros H. unfold updateTodo, try_catch, bind, lift, failure, ret, rejection.
  unfold IdAndUpdateSchema, Zod.z_object.
  assert (Eid : Zod.z_string [] "id" (Zod.property properties "id")
                = Zod.Invalid [mkIssue invalid_type ["id"] None]).
  { unfold Zod.z_string.
    destruct (Zod.property properties "id") as [[ | | |s| | ]|];
      try reflexivity.
    now destruct (H s). }
  rewrite Eid.
  destruct (UpdateTodoShape (Zod.property properties)) as [u|j]; simpl;
    eexists; (split; [|reflexivity]);
    eexists; (split; [now left | reflexivity]).
Qed.

(** X11: when the arguments carry no [id], or an [id] that is not a
    string, [getTodo], [deleteTodo], [completeTodo] and [updateTodo] answer
    with the message of a validation error that names [id], from any store
    and without changing it. *)
Theorem handlers_reject_a_missing_id
    (now : Z) (properties : list (string * JSON)) (headers : gmap string string)
    (db : DB) :
  (forall s, Zod.property properties "id" <> Some (JStr s)) ->
  let issue := mkIssue invalid_type ["id"] None in
  getTodo (JObj properties) headers db
  = (Returned (rejection "❌ Error retrieving TODO: " [issue]), db)
  /\ deleteTodo (JObj properties) headers db
     = (Returned (rejection "❌ Error deleting TODO: " [issue]), db)
  /\ completeTodo now (JObj properties) headers db
     = (Returned (rejection "❌ Error completing TODO: " [issue]), db)
  /\ exists issues,
       names_field issues "id"
       /\ updateTodo now (JObj properties) headers db
          = (Returned (rejection "❌ Error updating TODO: " issues), db).
Proof.
  intros H issue. pose proof (IdSchema_not_a_string properties H) as E.
  split; [|split; [|split]].
  - unfold getTodo, try_catch, bind, lift, failure, ret, rejection.
    now rewrite E.
  - unfold deleteTodo, try_catch, bind, lift, failure, ret, rejection.
    now rewrite E.
  - unfold completeTodo, try_catch, bind, lift, failure, ret, rejection.
    now rewrite E.
  - now apply updateTodo_without_id.
Qed.

(** *** Ids that match nothing, ids that are no uuid *)


(** X22: on a working store, for an id without NUL byte that the store
    does not read as a uuid, [getTodo], [deleteTodo] and [completeTodo]
    answer with the refusal of the store, which quotes the id, and leave
    the store as it was; none of them answers that the item was not
    found. *)
Theorem handlers_report_a_malformed_id
    (now : Z) (properties : list (string * JSON)) (headers : gmap string string)
    (db : DB) (id : string) :
  fault db = None ->
  Zod.property properties "id" = Some (JStr id) ->
  Uuid.of_string id = None ->
  has_nul id = false ->
  let refusal := "invalid input syntax for type uuid: " ++ DQ ++ id ++ DQ in
  getTodo (JObj properties) headers db
  = (Returned {| content := [text_content ("❌ Error retrieving TODO: " ++ refusal)] |},
     db)
  /\ deleteTodo (JObj properties) headers db
     = (Returned {| content := [text_content ("❌ Error deleting TODO: " ++ refusal)] |},
        db)
  /\ completeTodo now (JObj properties) headers db
     = (Returned
          {| content := [text_content ("❌ Error completing TODO: " ++ refusal)] |},
        db).
Proof.
  intros F Hid Hu Hnul refusal.
  pose proof (IdSchema_string properties id Hid) as E.
  unfold getTodo, deleteTodo, completeTodo.
  remember (UserInfo.id (extractUserInfo headers)) as caller eqn:Hcaller.
  clear Hcaller.
  unfold try_catch, bind, lift, failure, ret. rewrite E.
  cbn -[getTodoById TodoDatabase.deleteTodo TodoDatabase.updateTodo].
  rewrite (getTodoById_malformed _ _ _ Hu Hnul F),
    (deleteTodo_malformed _ _ _ Hu Hnul F).
  assert (Hp : update_params id (UpdateTodoRequest.mk None None (Some true) None None)
               = Thrown (Error refusal)).
  { unfold update_params. simpl.
    now rewrite (UuidFacts.uuid_param_malformed _ Hu Hnul). }
  rewrite (updateTodo_refused now id
             (UpdateTodoRequest.mk None None (Some true) None None) caller db _
             F eq_refl Hp).
  repeat split.
Qed.

(** *** Statistics of a user without items *)

(** X15: for a caller without rows on a working store, [getTodoStats]
    reports four zeros and a completion rate of 0 per cent: the rate is
    not computed when the total is 0. *)
Theorem getTodoStats_of_nothing
    (now : Z) (params : JSON) (headers : gmap string string) (db : DB) :
  fault db = None ->
  (forall r, In r (rows db) ->
             Row.user_id r <> UserInfo.id (extractUserInfo headers)) ->
  getTodoStats now params headers db
  = (Returned
       {| content :=
            [text_content
               ("📊 TODO Statistics for "
                ++ UserInfo.name (extractUserInfo headers) ++ ":" ++ LF ++ LF
                ++ "📝 Total: 0" ++ LF
                ++ "✅ Completed: 0" ++ LF
                ++ "⏳ Pending: 0" ++ LF
                ++ "🚨 Overdue: 0" ++ LF ++ LF
                ++ "Completion Rate: 0%")] |},
     db).
Proof.
  intros F Hnone.
  unfold getTodoStats, try_catch, bind, ret.
  unfold TodoDatabase.getTodoStats, bind, connect, select_where, ret.
  rewrite F. simpl.
  rewrite (filter_none _ (rows db)).
  - reflexivity.
  - intros r Hr. apply String.eqb_neq. now apply Hnone.
Qed.

(** *** Addresses without the scheme *)

Lemma String_replace_absent pattern replacement s :
  is_substring pattern s = false -> String_replace pattern replacement s = s.
Proof.
  induction s as [|c s IH]; intros H; rewrite is_substring_unfold in H;
    apply orb_false_iff in H; destruct H as [Hp Hs].
  - destruct pattern; [discriminate | reflexivity].
  - change (String_replace pattern replacement (String c s))
      with (if String.prefix pattern (String c s)
            then replacement ++ drop_string (String.length pattern) (String c s)
            else String c (String_replace pattern replacement s)).
    rewrite Hp. now rewrite IH.
Qed.

(** X16: [readTodoResource] does not require the scheme: an address in
    which [todo://] does not occur is looked up as the id itself, so it
    throws or returns the same text as the address with the scheme in
    front, under the address it was given. *)
Theorem readTodoResource_scheme_is_optional
    (uri : string) (headers : gmap string string) (db : DB) :
  is_substring "todo://" uri = false ->
  readTodoResource uri headers db
  = match readTodoResource ("todo://" ++ uri) headers db with
    | (Returned r, db') =>
        (Returned
           {| contents :=
                List.map (fun c => {| ResourceContents.uri := uri;
                                      ResourceContents.text :=
                                        ResourceContents.text c |})
                         (contents r) |}, db')
    | (Thrown e, db') => (Thrown e, db')
    end.
Proof.
  intros H. unfold readTodoResource, try_catch, bind.
  rewrite String_replace_scheme, (String_replace_absent _ _ _ H).
  destruct (getTodoById uri (UserInfo.id (extractUserInfo headers)) db)
    as [[[todo|]|e] db']; reflexivity.
Qed.

End WithRuntime.

(** *** Identity *)

(** X14: [extractUserInfo] reads the three forwarded headers under their
    lower-case names and nothing else: a header under any other name does
    not change the identity, and a forwarded header that is not empty is
    taken as it is. *)
Theorem extractUserInfo_reads_three_headers
    (headers : gmap string string) (name value : string) :
  name <> "x-forwarded-user" ->
  name <> "x-forwarded-email" ->
  name <> "x-forwarded-name" ->
  value <> EmptyString ->
  extractUserInfo (<[name := value]> headers) = extractUserInfo headers
  /\ UserInfo.id (extractUserInfo (<["x-forwarded-user" := value]> headers)) = value
  /\ UserInfo.email (extractUserInfo (<["x-forwarded-email" := value]> headers))
     = value
  /\ UserInfo.name (extractUserInfo (<["x-forwarded-name" := value]> headers))
     = value.
Proof.
  intros H1 H2 H3 Hv. unfold extractUserInfo.
  repeat split; simplify_map_eq; try reflexivity;
    now apply or_default_supplied.
Qed.

Lemma extractUserInfo_reads_three_headers_witness :
  extractUserInfo (<["X-Forwarded-User" := "mallory"]> alice_headers)
  = extractUserInfo alice_headers
  /\ UserInfo.id (extractUserInfo (<["x-forwarded-user" := "mallory"]> alice_headers))
     = "mallory".
Proof.
  destruct (extractUserInfo_reads_three_headers alice_headers
              "X-Forwarded-User" "mallory") as (H1 & H2 & _);
    try discriminate.
  exact (conj H1 H2).
Defined.

(** *** What [createTodo] stores *)




Lemma code_points_le_utf16 s : code_points s <= utf16_length s.
Proof.
  induction s as [|c s IH]; cbn [code_points utf16_length]; [lia|].
  destruct (is_continuation c); [lia|].
  destruct (240 <=? nat_of_ascii c)%nat; lia.
Qed.

Section CreateTodo.
Context {RT : JsRuntime}.



End CreateTodo.

(** *** The registered [updateTodo] tool *)

Lemma update_args_has_no_id (args : UpdateTodoRequest.t) :
  exists properties,
    Index.update_args args = JObj properties
    /\ Zod.property properties "id" = None.
Proof.
  eexists. split; [reflexivity|].
  destruct args as [[t|] [d|] [c|] [p|] [dd|]]; reflexivity.
Qed.

Section RegisteredUpdate.
Context {RT : JsRuntime}.

(** X17: the [updateTodo] tool as [createMcpServer] registers it never
    changes the store: its registered shape has no [id], so the parsed
    arguments that reach the handler carry none, and whenever the call
    returns a response it is the validation error that names [id]. *)
Theorem registered_updateTodo_never_updates
    (now : Z) (arguments : JSON) (headers : gmap string string) (db : DB) :
  snd (Index.registered_updateTodo now arguments headers db) = db
  /\ forall r,
       fst (Index.registered_updateTodo now arguments headers db) = Returned r ->
       exists issues,
         names_field issues "id"
         /\ r = rejection "❌ Error updating TODO: " issues.
Proof.
  unfold Index.registered_updateTodo.
  destruct (UpdateTodoSchema arguments) as [args|issues].
  - destruct (update_args_has_no_id args) as (properties & -> & Hid).
    destruct (updateTodo_without_id now properties headers db)
      as (issues & Hn & ->).
    { intros s. rewrite Hid. discriminate. }
    split; [reflexivity|]. intros r [= <-]. now exists issues.
  - split; [reflexivity|]. discriminate.
Qed.

End RegisteredUpdate.

(** *** The statements above on the sample store *)

Lemma handlers_reject_a_missing_id_witness :
  @deleteTodo sample_runtime (JObj [("id", JNum (2 # 1))]) alice_headers sample_db
  = (Returned
       (@rejection "❌ Error deleting TODO: " sample_runtime
          [mkIssue invalid_type ["id"] None]),
     sample_db).
Proof.
  refine (proj1 (proj2 (@handlers_reject_a_missing_id sample_runtime 40
                          [("id", JNum (2 # 1))] alice_headers sample_db _))).
  intros s. discriminate.
Defined.


Lemma handlers_report_a_malformed_id_witness :
  @getTodo sample_runtime (JObj [("id", JStr "1")]) alice_headers sample_db
  = (Returned
       {| content :=
            [text_content
               ("❌ Error retrieving TODO: invalid input syntax for type uuid: "
                ++ DQ ++ "1" ++ DQ)] |},
     sample_db).
Proof.
  exact (proj1 (@handlers_report_a_malformed_id sample_runtime 40
                  [("id", JStr "1")] alice_headers sample_db "1"
                  eq_refl eq_refl eq_refl eq_refl)).
Defined.

Lemma getTodoStats_of_nothing_witness :
  exists text,
    fst (@getTodoStats sample_runtime 40 (JObj [])
           {[ "x-forwarded-user" := "carol" ]} sample_db)
    = Returned {| content := [text_content text] |}
    /\ is_substring "Completion Rate: 0%" text = true.
Proof.
  eexists. split.
  - rewrite (@getTodoStats_of_nothing sample_runtime 40 (JObj [])
               {[ "x-forwarded-user" := "carol" ]} sample_db eq_refl).
    + reflexivity.
    + intros r [<-|[<-|[]]]; vm_compute; discriminate.
  - vm_compute. reflexivity.
Defined.

Lemma readTodoResource_scheme_is_optional_witness :
  @readTodoResource sample_runtime (sample_id "2") alice_headers sample_db
  = (Returned
       {| contents :=
            [ {| ResourceContents.uri := sample_id "2";
                 ResourceContents.text :=
                   @item_text sample_runtime
                     (sample_row "2" "alice" "Buy groceries" false (Some 20%Z)
                        15) |} ] |},
     sample_db).
Proof.
  rewrite (@readTodoResource_scheme_is_optional sample_runtime (sample_id "2")
             alice_headers sample_db eq_refl).
  vm_compute. reflexivity.
Defined.

Lemma registered_updateTodo_never_updates_witness :
  exists issues,
    names_field issues "id"
    /\ fst (@Index.registered_updateTodo sample_runtime 40
              (JObj [("id", JStr (sample_id "2")); ("completed", JBool true)])
              alice_headers sample_db)
       = Returned (@rejection "❌ Error updating TODO: " sample_runtime issues).
Proof.
  destruct (proj2 (@registered_updateTodo_never_updates sample_runtime 40
                     (JObj [("id", JStr (sample_id "2")); ("completed", JBool true)])
                     alice_headers sample_db) _ eq_refl)
    as (issues & Hn & E).
  exists issues. split; [exact Hn|].
  rewrite <- E. reflexivity.
Defined.

(** *** Deleting twice, creating with defaults *)

Section Scenarios.
Context {RT : JsRuntime}.


(** X21: on a working store and with an id not stored yet, [createTodo]
    given only a title of 1 to 255 UTF-16 code units without NUL byte, for
    an identity that the store takes as it is, stores a row of priority
    medium without description or due date for the caller, and answers
    with the title, the priority and the text of the id. *)
Theorem createTodo_with_a_title_only
    (newid : Uuid.t) (now : Z) (properties : list (string * JSON))
    (headers : gmap string string) (db : DB) (title : string) :
  fault db = None ->
  fresh_id db newid ->
  Zod.property properties "title" = Some (JStr title) ->
  1 <= utf16_length title <= 255 ->
  has_nul title = false ->
  storable_user (extractUserInfo headers) = true ->
  Zod.property properties "description" = None ->
  Zod.property properties "priority" = None ->
  Zod.property properties "due_date" = None ->
  createTodo newid now (JObj properties) headers db
  = (Returned
       {| content :=
            [text_content
               ("✅ TODO created successfully!" ++ LF ++ LF
                ++ "**" ++ title ++ "**" ++ LF
                ++ "Priority: medium" ++ LF
                ++ "ID: " ++ Uuid.to_string newid)] |},
     mkDB
       (rows db
        ++ [ {| Row.id := newid; Row.title := title; Row.description := None;
                Row.completed := false; Row.priority := medium;
                Row.due_date := None; Row.created_at := now;
                Row.updated_at := now;
                Row.user_id := UserInfo.id (extractUserInfo headers);
                Row.user_email := UserInfo.email (extractUserInfo headers);
                Row.user_name := UserInfo.name (extractUserInfo headers) |} ])
       None).
Proof.
  intros F Hfresh Ht Hlen Hnul Huser Hd Hp Hdd.
  assert (E : CreateTodoSchema (JObj properties)
              = Zod.Valid (CreateTodoRequest.mk title None (Some medium) None)).
  { unfold CreateTodoSchema, Zod.z_object. rewrite Ht, Hd, Hp, Hdd.
    unfold Zod.z_string, Zod.run_checks, Zod.str_min, Zod.str_max. simpl.
    destruct (Nat.ltb_spec (utf16_length title) 1); [lia|].
    destruct (Nat.ltb_spec 255 (utf16_length title)); [lia|].
    reflexivity. }
  assert (Hs : storable_todo (CreateTodoRequest.mk title None (Some medium) None)
               = true).
  { unfold storable_todo, fits_varchar. simpl. rewrite Hnul. simpl.
    rewrite !andb_true_r. apply Nat.leb_le.
    pose proof (code_points_le_utf16 title). lia. }
  unfold createTodo, try_catch, bind, lift, failure, ret. rewrite E.
  cbn [Zod.parse].
  rewrite (createTodo_accepted _ _ _ _ _ _ F Hfresh
             (insert_params_storable newid now _ _ Hs Huser)).
  reflexivity.
Qed.

End Scenarios.


Lemma createTodo_with_a_title_only_witness :
  exists db',
    @createTodo sample_runtime (sample_uuid "9") 40000
      (JObj [("title", JStr "Buy milk")]) alice_headers sample_db
    = (Returned
         {| content :=
              [text_content
                 ("✅ TODO created successfully!" ++ LF ++ LF
                  ++ "**Buy milk**" ++ LF ++ "Priority: medium" ++ LF
                  ++ "ID: 00000000-0000-0000-0000-000000000009")] |},
       db')
    /\ length (rows db') = 3.
Proof.
  eexists. split.
  - refine (@createTodo_with_a_title_only sample_runtime (sample_uuid "9") 40000
              [("title", JStr "Buy milk")] alice_headers sample_db "Buy milk"
              eq_refl sample_db_fresh_9 eq_refl _ eq_refl eq_refl eq_refl
              eq_refl eq_refl).
    simpl. lia.
  - reflexivity.
Defined.


End TodoMcpServerMore.
